(** * TripRoute-Pro: the trucking services (backend/trucking/services.py)

    A shallow embedding of the three calculators of [services.py]
    ([RouteCalculator._generate_stops], [HOSCalculator] and
    [ELDLogGenerator]) and the properties of them that the specification
    states; then of the rest of [services.py] ([geocode_location],
    [calculate_route], [export_to_pdf_data]) and of the parts of [views.py]
    that call the calculators, with further properties read off the code.
    The two web services are taken by what they answer.

    Conventions of the embedding:
    - a Python [int] is a [Z]; [//] and [%] are [Z.div] and [Z.modulo]
      (both round towards minus infinity, as Python's do);
    - a Python [float] is an exact rational [Q]: the development is about the
      counting and threshold logic of the calculators, not about binary64
      rounding.  The inputs of the counterexamples below are integers or
      dyadic rationals, on which binary64 arithmetic is exact;
    - a [dict] with a fixed set of keys is a [Record]; a [list] is a [list];
    - a [str] is a [string]. *)

From Stdlib Require Import ZArith QArith Qround Lqa Lia List String Ascii Bool.
From Stdlib Require Import DecimalString DecimalZ DecimalPos.
From Stdlib Require Import Permutation.
Import ListNotations.

Open Scope string_scope.
Open Scope Z_scope.

(** ** Python primitives used by the services *)

Module Py.

(** [a < b] on floats. *)
Definition Qltb (a b : Q) : bool := negb (Qle_bool b a).

(** [min(a, b)]: the first argument unless the second is smaller. *)
Definition min (a b : Q) : Q := if Qltb b a then b else a.

(** [max(a, b)] on integers. *)
Definition max (a b : Z) : Z := if a <? b then b else a.

(** [int(x)] on a float: truncation towards zero. *)
Definition int (x : Q) : Z := Z.quot (Qnum x) (Zpos (Qden x)).

(** [x // y] on floats, as a float with an integral value. *)
Definition floordiv (x y : Q) : Q := inject_Z (Qfloor (x / y)).

(** [round(x)]: nearest integer, ties to the even one. *)
Definition round (x : Q) : Z :=
  let f := Qfloor x in
  let r := (x - inject_Z f)%Q in
  match (r ?= 1 # 2)%Q with
  | Lt => f
  | Gt => f + 1
  | Eq => if Z.even f then f else f + 1
  end.

(** [round(x, 2)]. *)
Definition round2 (x : Q) : Q := (inject_Z (round (x * 100)) / 100)%Q.

(** [str(n)] and [f"{n}"] on an integer. *)
Definition str (n : Z) : string := NilZero.string_of_int (Z.to_int n).

(** [f"{n:02d}"]: at least two characters, padded with a zero on the left.
    Only a single digit is shorter than that: a negative number has its sign. *)
Definition fmt_02d (n : Z) : string :=
  if (0 <=? n) && (n <? 10) then "0" ++ str n else str n.

(** [f"{x:.1f}"]: one digit after the point, the value rounded to the
    nearest tenth (ties to even); a negative value keeps its sign. *)
Definition fmt_1f (x : Q) : string :=
  let t := Z.abs (round (x * 10)) in
  (if Qltb x 0 then "-" else "") ++ str (t / 10) ++ "." ++ str (t mod 10).

(** [sum(...)] of a sequence of integers. *)
Definition sum (l : list Z) : Z := fold_left Z.add l 0.

(** [range(n)]. *)
Definition range (n : Z) : list Z := map Z.of_nat (seq 0 (Z.to_nat n)).

(** [s.startswith(sub)]. *)
Fixpoint startswith (s sub : string) {struct sub} : bool :=
  match sub with
  | EmptyString => true
  | String c sub' =>
      match s with
      | EmptyString => false
      | String d s' => Ascii.eqb c d && startswith s' sub'
      end
  end.

(** [sub in s] on strings: [sub] occurs somewhere in [s]. *)
Fixpoint contains (sub s : string) : bool :=
  startswith s sub
  || match s with
     | EmptyString => false
     | String _ s' => contains sub s'
     end.

(** [sep.join(l)]. *)
Fixpoint join (sep : string) (l : list string) : string :=
  match l with
  | [] => ""
  | [x] => x
  | x :: rest => x ++ sep ++ join sep rest
  end.

(** [s.split(c)] for a separator of one character. *)
Fixpoint split (c : ascii) (s : string) : list string :=
  match s with
  | EmptyString => [""]
  | String a rest =>
      if Ascii.eqb a c then "" :: split c rest
      else match split c rest with
           | [] => [String a ""]
           | first :: others => String a first :: others
           end
  end.

(** The newline character. *)
Definition newline : ascii := Ascii.ascii_of_nat 10.

End Py.

(** ** Data model *)

(** One hourly entry of a log: [{'hour': ..., 'status': ...}].  The status is
    the string stored under ['status']; the calculators only compare it with
    the literals ['driving'] and ['on-duty'], so any other value (also a
    missing key, for which [entry.get('status')] is [None]) behaves like
    ['off-duty']. *)
Record TimeEntry := mkEntry { hour : Z; status : string }.

(** ** HOSCalculator *)

Module HOSCalculator.

(** The dictionary returned by [calculate_hos_status]. *)
Record HOSStatus := mkHOSStatus {
  drive_time_left : string;
  on_duty_left : string;
  cycle_used : string;
  next_break : string;
  is_compliant : bool
}.

(** One element of the list returned by [calculate_violations]. *)
Record Violation := mkViolation {
  vtype : string;
  description : string;
  severity : string
}.

(** [_format_time]. *)
Definition _format_time (minutes : Z) : string :=
  let hours := minutes / 60 in
  let mins := minutes mod 60 in
  Py.str hours ++ "h " ++ Py.fmt_02d mins ++ "m".

Definition is_driving (entry : TimeEntry) : bool :=
  String.eqb (status entry) "driving".

(** [entry.get('status') in ['driving', 'on-duty']]. *)
Definition is_on_duty (entry : TimeEntry) : bool :=
  existsb (String.eqb (status entry)) ["driving"; "on-duty"].

(** [sum(1 for entry in time_entries if entry.get('status') == 'driving') * 60] *)
Definition driving_minutes (time_entries : list TimeEntry) : Z :=
  Py.sum (map (fun _ => 1) (filter is_driving time_entries)) * 60.

Definition on_duty_minutes (time_entries : list TimeEntry) : Z :=
  Py.sum (map (fun _ => 1) (filter is_on_duty time_entries)) * 60.

Definition drive_time_left_minutes (time_entries : list TimeEntry) : Z :=
  Py.max 0 (11 * 60 - driving_minutes time_entries).

Definition on_duty_left_minutes (time_entries : list TimeEntry) : Z :=
  Py.max 0 (14 * 60 - on_duty_minutes time_entries).

(** [current_cycle_hours + (on_duty_minutes / 60)], a float. *)
Definition cycle_used_hours (time_entries : list TimeEntry)
    (current_cycle_hours : Q) : Q :=
  (current_cycle_hours + inject_Z (on_duty_minutes time_entries) / 60)%Q.

(** The loop of [calculate_hos_status] over the entries: the counter is
    incremented on a driving entry and reset by any other. *)
Definition continuous_step (continuous_driving : Z) (entry : TimeEntry) : Z :=
  if is_driving entry then continuous_driving + 1 else 0.

Definition continuous_driving (time_entries : list TimeEntry) : Z :=
  fold_left continuous_step time_entries 0.

Definition next_break_minutes (time_entries : list TimeEntry) : Z :=
  Py.max 0 (8 * 60 - continuous_driving time_entries * 60).

Definition calculate_hos_status (time_entries : list TimeEntry)
    (current_cycle_hours : Q) : HOSStatus :=
  let cycle := cycle_used_hours time_entries current_cycle_hours in
  {| drive_time_left := _format_time (drive_time_left_minutes time_entries);
     on_duty_left := _format_time (on_duty_left_minutes time_entries);
     cycle_used := Py.fmt_1f cycle ++ "h / 70h";
     next_break := _format_time (next_break_minutes time_entries);
     is_compliant :=
       (driving_minutes time_entries <=? 11 * 60)
       && (on_duty_minutes time_entries <=? 14 * 60)
       && Qle_bool cycle 70
       && (continuous_driving time_entries <=? 8) |}.

(** The second loop, of [calculate_violations]: it also keeps the largest
    value the counter has had.  The state is
    [(continuous_driving, max_continuous)]. *)
Definition max_step (st : Z * Z) (entry : TimeEntry) : Z * Z :=
  let '(continuous, max_continuous) := st in
  if is_driving entry
  then (continuous + 1, Py.max max_continuous (continuous + 1))
  else (0, max_continuous).

Definition max_continuous (time_entries : list TimeEntry) : Z :=
  snd (fold_left max_step time_entries (0, 0)).

(** [if b: violations.append(x)], as the list of what it appends. *)
Definition when {A} (b : bool) (x : A) : list A := if b then [x] else [].

Definition calculate_violations (time_entries : list TimeEntry)
    (current_cycle_hours : Q) : list Violation :=
  let driving := driving_minutes time_entries in
  let on_duty := on_duty_minutes time_entries in
  let cycle := cycle_used_hours time_entries current_cycle_hours in
  let longest := max_continuous time_entries in
  when (11 * 60 <? driving)
    {| vtype := "driving_limit";
       description := "Exceeded 11-hour driving limit by "
                      ++ _format_time (driving - 11 * 60);
       severity := "violation" |}
  ++ when (14 * 60 <? on_duty)
    {| vtype := "duty_limit";
       description := "Exceeded 14-hour on-duty limit by "
                      ++ _format_time (on_duty - 14 * 60);
       severity := "violation" |}
  ++ when (Py.Qltb 70 cycle)
    {| vtype := "duty_limit";
       description := "Exceeded 70-hour cycle limit by "
                      ++ Py.fmt_1f (cycle - 70) ++ " hours";
       severity := "violation" |}
  ++ when (8 <? longest)
    {| vtype := "break_required";
       description := "Drove " ++ Py.str longest
                      ++ " hours without required 30-minute break";
       severity := "violation" |}.

End HOSCalculator.

(** ** ELDLogGenerator *)

(** What the generator uses of a [datetime]: the calendar day (as a day
    number), the hour of the day, and the rest of the time of day, which it
    never touches. *)
Record datetime := mkDatetime { dt_day : Z; dt_hour : Z; dt_rest : Z }.

(** [d + timedelta(days=1)]. *)
Definition add_one_day (d : datetime) : datetime :=
  {| dt_day := dt_day d + 1; dt_hour := dt_hour d; dt_rest := dt_rest d |}.

(** [d.replace(hour=h)]. *)
Definition replace_hour (d : datetime) (h : Z) : datetime :=
  {| dt_day := dt_day d; dt_hour := h; dt_rest := dt_rest d |}.

(** How a call ends: it returns, it raises, or the model's bound on the
    number of loop iterations was too small to tell. *)
Inductive outcome (A : Type) : Type :=
| Returned (a : A)
| Raised (exn : string)
| OutOfFuel.
Arguments Returned {A} a.
Arguments Raised {A} exn.
Arguments OutOfFuel {A}.

(** Sequencing of calls: the first one that does not return ends the whole. *)
Definition bind {A B : Type} (x : outcome A) (f : A -> outcome B) : outcome B :=
  match x with
  | Returned a => f a
  | Raised exn => Raised exn
  | OutOfFuel => OutOfFuel
  end.

Module ELDLogGenerator.

(** The dictionary returned by [generate_log_for_trip]. *)
Record LogData := mkLogData {
  time_entries : list TimeEntry;
  driving_time : Z;
  on_duty_time : Z;
  off_duty_time : Z;
  sleeper_berth_time : Z;
  remarks : list string;
  is_compliant : bool
}.

(** One element of the list returned by [generate_multi_day_logs]:
    [{'date': ..., 'daily_miles': ..., **log_data}]. *)
Record DailyLog := mkDailyLog {
  date : datetime;
  daily_miles : Q;
  log_data : LogData
}.

(** The status chosen by the [if]/[elif] chain for one hour of the day. *)
Definition hour_status (current_hour : Z) (driving_hours : Q) (hour : Z) : string :=
  if hour <? current_hour then "off-duty"
  else if hour <? current_hour + 1 then "on-duty"
  else if Py.Qltb (inject_Z hour) (inject_Z (current_hour + 1) + driving_hours)
  then "driving"
  else if Py.Qltb (inject_Z hour) (inject_Z (current_hour + 1) + driving_hours + 1)
  then "on-duty"
  else "off-duty".

(** The remarks appended by the same chain for that hour (none or one). *)
Definition hour_remarks (current_hour : Z) (driving_hours : Q) (hour : Z)
    : list string :=
  if hour <? current_hour then []
  else if hour <? current_hour + 1 then
    if hour =? current_hour
    then [Py.fmt_02d hour ++ ":00 - Begin pickup activities"] else []
  else if Py.Qltb (inject_Z hour) (inject_Z (current_hour + 1) + driving_hours)
  then
    if hour =? current_hour + 1
    then [Py.fmt_02d hour ++ ":00 - Begin driving"] else []
  else if Py.Qltb (inject_Z hour) (inject_Z (current_hour + 1) + driving_hours + 1)
  then
    if hour =? Py.int (inject_Z (current_hour + 1) + driving_hours)
    then [Py.fmt_02d hour ++ ":00 - Begin dropoff activities"] else []
  else
    if hour =? Py.int (inject_Z (current_hour + 1) + driving_hours + 1)
    then [Py.fmt_02d hour ++ ":00 - Off duty"] else [].

(** One iteration of [for hour in range(24)]; the state is
    [(time_entries, remarks)]. *)
Definition hour_step (current_hour : Z) (driving_hours : Q)
    (st : list TimeEntry * list string) (hour : Z)
    : list TimeEntry * list string :=
  ((fst st ++ [ {| hour := hour;
                   status := hour_status current_hour driving_hours hour |} ])%list,
   (snd st ++ hour_remarks current_hour driving_hours hour)%list).

Definition generate_log_for_trip (start_time : datetime) (distance_miles : Q)
    (driving_hours : Q) : LogData :=
  let current_hour := dt_hour start_time in
  let driving_time := Py.int (driving_hours * 60) in
  let on_duty_time := driving_time + 120 in
  let off_duty_time := 24 * 60 - on_duty_time in
  let st := fold_left (hour_step current_hour driving_hours) (Py.range 24)
                      ([], []) in
  {| time_entries := fst st;
     driving_time := driving_time;
     on_duty_time := on_duty_time;
     off_duty_time := off_duty_time;
     sleeper_berth_time := 0;
     remarks := snd st;
     is_compliant := Qle_bool driving_hours 11 && (on_duty_time <=? 14 * 60) |}.

(** The local variables of [generate_multi_day_logs] that its loop updates. *)
Record LoopState := mkLoopState {
  logs : list DailyLog;
  current_date : datetime;
  remaining_hours : Q;
  remaining_distance : Q;
  day_count : Z
}.

Section MultiDay.

Variables total_distance total_driving_hours : Q.

(** The locals of one iteration of [while remaining_hours > 0], from the
    state [st] it starts in. *)
Definition daily_driving_hours (st : LoopState) : Q :=
  Py.min 11 (remaining_hours st).

Definition daily_distance (st : LoopState) : Q :=
  (daily_driving_hours st / total_driving_hours * total_distance)%Q.

(** The dictionary the iteration appends to [logs]. *)
Definition day_log (st : LoopState) : DailyLog :=
  {| date := current_date st;
     daily_miles := Py.round2 (daily_distance st);
     log_data := generate_log_for_trip (current_date st) (daily_distance st)
                                       (daily_driving_hours st) |}.

(** The body of the loop. *)
Definition loop_body (st : LoopState) : LoopState :=
  let remaining := (remaining_hours st - daily_driving_hours st)%Q in
  let next_date := add_one_day (current_date st) in
  {| logs := (logs st ++ [day_log st])%list;
     current_date :=
       if Py.Qltb 0 remaining
       then replace_hour next_date
              (Py.max 0 ((dt_hour next_date + 10) mod 24))
       else next_date;
     remaining_hours := remaining;
     remaining_distance := (remaining_distance st - daily_distance st)%Q;
     day_count := day_count st + 1 |}.

(** The loop, with a bound on the number of iterations.  The division by
    [total_driving_hours] in the body raises when that is zero. *)
Fixpoint while_loop (fuel : nat) (st : LoopState) : outcome LoopState :=
  if Py.Qltb 0 (remaining_hours st) then
    match fuel with
    | O => OutOfFuel
    | S fuel' =>
        if Qeq_bool total_driving_hours 0 then Raised "ZeroDivisionError"
        else while_loop fuel' (loop_body st)
    end
  else Returned st.

End MultiDay.

Definition initial_state (start_time : datetime)
    (total_distance total_driving_hours : Q) : LoopState :=
  {| logs := [];
     current_date := start_time;
     remaining_hours := total_driving_hours;
     remaining_distance := total_distance;
     day_count := 1 |}.

Definition generate_multi_day_logs (fuel : nat) (start_time : datetime)
    (total_distance total_driving_hours : Q)
    (pickup_location dropoff_location : string) : outcome (list DailyLog) :=
  match while_loop total_distance total_driving_hours fuel
          (initial_state start_time total_distance total_driving_hours) with
  | Returned st => Returned (logs st)
  | Raised exn => Raised exn
  | OutOfFuel => OutOfFuel
  end.

(** The dictionary passed to [export_to_pdf_data]; [None] is a missing key.
    The value under ['date'] is a [datetime] or anything else, taken by its
    [str]. *)
Record LogDict := mkLogDict {
  d_date : option (datetime + string);
  d_daily_miles : option Q;
  d_time_entries : option (list TimeEntry);
  d_driving_time : option Z;
  d_on_duty_time : option Z;
  d_off_duty_time : option Z;
  d_sleeper_berth_time : option Z;
  d_remarks : option (list string)
}.

(** The dictionary returned by [export_to_pdf_data]. *)
Record PdfData := mkPdfData {
  pdf_driver_name : string;
  pdf_date : string;
  pdf_total_miles : Q;
  pdf_time_entries : list TimeEntry;
  pdf_driving_time : string;
  pdf_on_duty_time : string;
  pdf_off_duty_time : string;
  pdf_sleeper_berth_time : string;
  pdf_remarks : list string
}.

(** [d.get(key, default)]. *)
Definition get {A} (value : option A) (default : A) : A :=
  match value with
  | Some v => v
  | None => default
  end.

(** [f"{m // 60}h {m % 60}m"]. *)
Definition hours_minutes (m : Z) : string :=
  Py.str (m / 60) ++ "h " ++ Py.str (m mod 60) ++ "m".

(** [export_to_pdf_data]; [strftime] stands for
    [datetime.strftime('%Y-%m-%d')]. *)
Definition export_to_pdf_data (strftime : datetime -> string)
    (log_data : LogDict) (driver_name : string) : PdfData :=
  {| pdf_driver_name := driver_name;
     pdf_date := match d_date log_data with
                 | Some (inl d) => strftime d
                 | Some (inr other) => other
                 | None => ""
                 end;
     pdf_total_miles := get (d_daily_miles log_data) 0%Q;
     pdf_time_entries := get (d_time_entries log_data) [];
     pdf_driving_time := hours_minutes (get (d_driving_time log_data) 0);
     pdf_on_duty_time := hours_minutes (get (d_on_duty_time log_data) 0);
     pdf_off_duty_time := hours_minutes (get (d_off_duty_time log_data) 0);
     pdf_sleeper_berth_time :=
       hours_minutes (get (d_sleeper_berth_time log_data) 0);
     pdf_remarks := get (d_remarks log_data) [] |}.

End ELDLogGenerator.

(** ** RouteCalculator._generate_stops *)

Module RouteCalculator.

(** One stop dictionary. *)
Record Stop := mkStop {
  id : string;
  stype : string;
  location : string;
  coordinates : list Q;
  estimated_time : string;
  description : string;
  duration : Z;
  required : bool
}.

(** Coordinates are [(lat, lon)] pairs; a stop stores [[lon, lat]]. *)
Definition lon_lat (coords : Q * Q) : list Q := [snd coords; fst coords].

Definition pickup_stop (pickup_location : string) (pickup_coords : Q * Q)
    (stop_id : Z) : Stop :=
  {| id := "pickup-" ++ Py.str stop_id;
     stype := "pickup";
     location := pickup_location;
     coordinates := lon_lat pickup_coords;
     estimated_time := "1 hour";
     description := "Load pickup - 1 hour";
     duration := 60;
     required := true |}.

Definition fuel_stop (pickup_coords : Q * Q) (i stop_id : Z) : Stop :=
  {| id := "fuel-" ++ Py.str stop_id;
     stype := "fuel";
     location := "Fuel Stop " ++ Py.str (i + 1);
     coordinates := lon_lat pickup_coords;
     estimated_time := "30 minutes";
     description := "Required fuel stop";
     duration := 30;
     required := true |}.

Definition rest_stop (pickup_coords : Q * Q) (i stop_id : Z) : Stop :=
  {| id := "rest-" ++ Py.str stop_id;
     stype := "rest";
     location := "Rest Area " ++ Py.str (i + 1);
     coordinates := lon_lat pickup_coords;
     estimated_time := "10 hours";
     description := "Required 10-hour rest break";
     duration := 600;
     required := true |}.

Definition dropoff_stop (dropoff_location : string) (dropoff_coords : Q * Q)
    (stop_id : Z) : Stop :=
  {| id := "dropoff-" ++ Py.str stop_id;
     stype := "dropoff";
     location := dropoff_location;
     coordinates := lon_lat dropoff_coords;
     estimated_time := "1 hour";
     description := "Unload delivery - 1 hour";
     duration := 60;
     required := true |}.

(** One iteration of a [for i in range(...)] loop that appends the stop
    [mk i stop_id] and increments [stop_id]; the state is [(stops, stop_id)]. *)
Definition append_stop (mk : Z -> Z -> Stop) (st : list Stop * Z) (i : Z)
    : list Stop * Z :=
  ((fst st ++ [mk i (snd st)])%list, snd st + 1).

Definition _generate_stops (current_location pickup_location dropoff_location : string)
    (current_coords pickup_coords dropoff_coords : Q * Q)
    (total_distance total_duration : Q) : list Stop :=
  let st0 := ([pickup_stop pickup_location pickup_coords 1], 1 + 1) in
  let fuel_stops_needed := Py.int (Py.floordiv total_distance 1000) in
  let st1 := fold_left (append_stop (fuel_stop pickup_coords))
                       (Py.range fuel_stops_needed) st0 in
  let driving_hours := (total_duration / 60)%Q in
  let rest_stops_needed := Py.int (Py.floordiv driving_hours 11) in
  let st2 := fold_left (append_stop (rest_stop pickup_coords))
                       (Py.range rest_stops_needed) st1 in
  (fst st2 ++ [dropoff_stop dropoff_location dropoff_coords (snd st2)])%list.

(** What the request of [geocode_location] to the geocoding service comes
    to: an exception raised on the way (by the request, the status check, the
    decoding, or the reading of the first result), with its message, or the
    results, each a (lat, lon) pair. *)
Inductive geocoder_reply : Type :=
| GeocoderRaised (message : string)
| GeocoderResults (results : list (Q * Q)).

(** [geocode_location]: whatever is raised inside the [try], the empty-result
    exception included, is raised again behind "Geocoding failed for ...". *)
Definition geocode_location (reply : geocoder_reply) (location : string)
    : outcome (Q * Q) :=
  match reply with
  | GeocoderRaised message =>
      Raised ("Geocoding failed for " ++ location ++ ": " ++ message)
  | GeocoderResults [] =>
      Raised ("Geocoding failed for " ++ location ++ ": "
              ++ ("Could not find location: " ++ location))
  | GeocoderResults (first :: _) => Returned first
  end.

(** One route of the routing service's answer: its
    ['geometry']['coordinates'], its ['distance'] in meters and its
    ['duration'] in seconds. *)
Module OSRM.
Record Route := mkRoute {
  geometry : list (list Q);
  distance : Q;
  duration : Q
}.
End OSRM.

(** What the request to the routing service comes to: an exception raised
    on the way (by the request, the status check, the decoding, or the reading
    of a route that lacks a key), with its message, or the decoded answer with
    its ['code'] (if any) and its ['routes']. *)
Inductive router_reply : Type :=
| RouterRaised (message : string)
| RouterData (code : option string) (routes : list OSRM.Route).

(** The dictionary returned by [calculate_route]; its ['coordinates'] key
    is [route_coordinates] here. *)
Record RouteData := mkRouteData {
  route_coordinates : list (list Q);
  total_distance : Q;
  estimated_duration : Z;
  stops : list Stop
}.

(** [data.get('code') == expected]. *)
Definition code_is (expected : string) (code : option string) : bool :=
  match code with
  | Some c => String.eqb c expected
  | None => false
  end.

(** [not routes]: an empty list, or no list at all, which the decoded answer
    has as an empty one here. *)
Definition is_empty {A} (l : list A) : bool :=
  match l with
  | [] => true
  | _ :: _ => false
  end.

(** [calculate_route], over what the services it calls answer: the
    geocoding service to each of the three lookups, in the order they are
    made, and the routing service for the three coordinates.  Every
    exception is raised again behind "Route calculation failed: ". *)
Definition calculate_route
    (current_reply pickup_reply dropoff_reply : geocoder_reply)
    (router : Q * Q -> Q * Q -> Q * Q -> router_reply)
    (current_location pickup_location dropoff_location : string)
    : outcome RouteData :=
  let attempt :=
    bind (geocode_location current_reply current_location)
      (fun current_coords =>
    bind (geocode_location pickup_reply pickup_location)
      (fun pickup_coords =>
    bind (geocode_location dropoff_reply dropoff_location)
      (fun dropoff_coords =>
    match router current_coords pickup_coords dropoff_coords with
    | RouterRaised message => Raised message
    | RouterData code routes =>
        if negb (code_is "Ok" code) || is_empty routes then
          Raised "No route found between locations"
        else
          match routes with
          | [] => Raised "list index out of range"
          | route :: _ =>
              let total_distance := (OSRM.distance route / (160934 # 100))%Q in
              let total_duration := (OSRM.duration route / 60)%Q in
              Returned
                {| route_coordinates := OSRM.geometry route;
                   total_distance := Py.round2 total_distance;
                   estimated_duration := Py.round total_duration;
                   stops := _generate_stops current_location pickup_location
                              dropoff_location current_coords pickup_coords
                              dropoff_coords total_distance total_duration |}
          end
    end))) in
  match attempt with
  | Raised message => Raised ("Route calculation failed: " ++ message)
  | other => other
  end.

End RouteCalculator.

(** ** The views that use the calculators (views.py) *)

Module Views.

(** The body of the error response of [TripViewSet.calculate]. *)
Record ErrorResponse := mkErrorResponse {
  error : string;
  details : string;
  original_error : string
}.

(** The [except Exception as e] branch of [TripViewSet.calculate], from
    [str(e)]. *)
Definition error_response (error_str : string) : ErrorResponse :=
  let '(error_message, user_friendly_message) :=
    if Py.contains "Could not find location" error_str then
      ("Location not found",
       "One or more locations could not be found. Please check spelling and try common city names.")
    else if Py.contains "Geocoding failed" error_str then
      ("Address lookup service temporarily unavailable",
       "Our address lookup service is temporarily busy. Please try again in a moment or use major city names.")
    else if Py.contains "No route found" error_str then
      ("No route available",
       "No driving route could be found between these locations. Please check the addresses.")
    else
      ("Failed to calculate route",
       "Please check your locations and try again") in
  {| error := error_message;
     details := user_friendly_message;
     original_error := error_str |}.

(** The ELD logs of [TripViewSet.calculate], from the route's total_distance
    and estimated_duration: several days beyond 11 hours, one day
    otherwise. *)
Definition eld_logs_data (fuel : nat) (start_time : datetime)
    (total_distance : Q) (estimated_duration : Z)
    (pickup_location dropoff_location : string)
    : outcome (list ELDLogGenerator.DailyLog) :=
  let driving_hours := (inject_Z estimated_duration / 60)%Q in
  if Py.Qltb 11 driving_hours then
    ELDLogGenerator.generate_multi_day_logs fuel start_time total_distance
      driving_hours pickup_location dropoff_location
  else
    Returned
      [ {| ELDLogGenerator.date := start_time;
           ELDLogGenerator.daily_miles := total_distance;
           ELDLogGenerator.log_data :=
             ELDLogGenerator.generate_log_for_trip start_time total_distance
               driving_hours |} ].

(** [eld_logs_data[0]['time_entries'] if eld_logs_data else []]. *)
Definition current_time_entries (logs : list ELDLogGenerator.DailyLog)
    : list TimeEntry :=
  match logs with
  | first :: _ => ELDLogGenerator.time_entries (ELDLogGenerator.log_data first)
  | [] => []
  end.

(** How the remarks of a log are stored, ['\n'.join(log_data['remarks'])],
    and read back for the PDF,
    [log.remarks.split('\n') if log.remarks else []]. *)
Definition store_remarks (remarks : list string) : string :=
  Py.join (String Py.newline "") remarks.

Definition load_remarks (stored : string) : list string :=
  match stored with
  | EmptyString => []
  | _ => Py.split Py.newline stored
  end.

End Views.

(** * Vocabulary of the specification

    The notions the specification uses to describe the calculators, defined
    independently of the loops that compute them. *)

(** The number of entries whose status is [s]. *)
Definition count_status (s : string) (es : list TimeEntry) : Z :=
  Z.of_nat (List.length (filter (fun e => String.eqb (status e) s) es)).

(** A block of [n] consecutive driving entries somewhere in [es]. *)
Definition driving_run (n : Z) (es : list TimeEntry) : Prop :=
  exists pre run post,
    es = (pre ++ run ++ post)%list
    /\ forallb HOSCalculator.is_driving run = true
    /\ Z.of_nat (List.length run) = n.

(** [m] is the length of the longest block of consecutive driving entries. *)
Definition longest_streak (m : Z) (es : list TimeEntry) : Prop :=
  driving_run m es /\ forall n, driving_run n es -> n <= m.

(** The number of driving entries at the front of a sequence. *)
Fixpoint leading_driving (es : list TimeEntry) : Z :=
  match es with
  | [] => 0
  | e :: rest => if HOSCalculator.is_driving e then 1 + leading_driving rest else 0
  end.

(** The number of consecutive driving entries at the END of a sequence. *)
Definition trailing_streak (es : list TimeEntry) : Z :=
  leading_driving (rev es).

(** The state of the loop of [generate_multi_day_logs] after [k] iterations
    of its body from the state [st]. *)
Fixpoint run_days (total_distance total_driving_hours : Q) (k : nat)
    (st : ELDLogGenerator.LoopState) : ELDLogGenerator.LoopState :=
  match k with
  | O => st
  | S k' =>
      run_days total_distance total_driving_hours k'
        (ELDLogGenerator.loop_body total_distance total_driving_hours st)
  end.

(** The state of the loop before day [k] of a trip (days count from 0). *)
Definition day_state (start : datetime) (total_distance total_driving_hours : Q)
    (k : nat) : ELDLogGenerator.LoopState :=
  run_days total_distance total_driving_hours k
    (ELDLogGenerator.initial_state start total_distance total_driving_hours).

(** The number of days of a trip of [total] driving hours at no more than
    eleven hours a day: ceil(total / 11). *)
Definition days_needed (total : Q) : nat := Z.to_nat (Qceiling (total / 11)).


(** A day used to exercise the calculators: on duty at 08:00, [driven]
    hours of driving from 09:00, off duty for the rest of the day. *)
Definition sample_day (driven : nat) : list TimeEntry :=
  map (fun k => mkEntry k
                  (if k <? 8 then "off-duty"
                   else if k =? 8 then "on-duty"
                   else if k <? 9 + Z.of_nat driven then "driving"
                   else "off-duty"))
      (Py.range 24).

(** Two entries that the calculators cannot tell apart: both driving, both
    on duty without driving, or both anything else. *)
Definition same_duty_class (e e' : TimeEntry) : Prop :=
  HOSCalculator.is_driving e = HOSCalculator.is_driving e'
  /\ HOSCalculator.is_on_duty e = HOSCalculator.is_on_duty e'.

(** The remarks of a day that starts at hour [h] with a whole number [n] of
    driving hours: each one is there when its hour is still in the day. *)
Definition whole_hours_remarks (h n : Z) : list string :=
  ([(Py.fmt_02d h ++ ":00 - Begin pickup activities")%string]
   ++ HOSCalculator.when ((0 <? n) && (h + 1 <=? 23))
        ((Py.fmt_02d (h + 1) ++ ":00 - Begin driving")%string)
   ++ HOSCalculator.when (h + 1 + n <=? 23)
        ((Py.fmt_02d (h + 1 + n) ++ ":00 - Begin dropoff activities")%string)
   ++ HOSCalculator.when (h + 2 + n <=? 23)
        ((Py.fmt_02d (h + 2 + n) ++ ":00 - Off duty")%string))%list.

(** The remarks of a day that starts at hour [h] with a number of driving
    hours that is not whole. *)
Definition part_hours_remarks (h : Z) : list string :=
  ([(Py.fmt_02d h ++ ":00 - Begin pickup activities")%string]
   ++ HOSCalculator.when (h + 1 <=? 23)
        ((Py.fmt_02d (h + 1) ++ ":00 - Begin driving")%string))%list.

(** The character [c] occurs in [s]. *)
Fixpoint has_char (c : ascii) (s : string) : bool :=
  match s with
  | EmptyString => false
  | String a rest => Ascii.eqb a c || has_char c rest
  end.


(** * Properties *)

(** ** Facts about the Python primitives *)

Section PyFacts.

Lemma Qltb_lt (a b : Q) : Py.Qltb a b = true <-> (a < b)%Q.
Proof.
  unfold Py.Qltb. rewrite negb_true_iff, <- not_true_iff_false, Qle_bool_iff.
  split; [apply Qnot_le_lt | apply Qlt_not_le].
Qed.

Lemma Qltb_ge (a b : Q) : Py.Qltb a b = false <-> (b <= a)%Q.
Proof.
  unfold Py.Qltb. rewrite negb_false_iff. apply Qle_bool_iff.
Qed.

Lemma max_is_Zmax (a b : Z) : Py.max a b = Z.max a b.
Proof. unfold Py.max. destruct (Z.ltb_spec a b); lia. Qed.

Lemma min_cases (a b : Q) :
  ((b < a)%Q /\ Py.min a b = b) \/ ((a <= b)%Q /\ Py.min a b = a).
Proof.
  unfold Py.min. destruct (Py.Qltb b a) eqn:E.
  - left. split; [now apply Qltb_lt | reflexivity].
  - right. split; [now apply Qltb_ge | reflexivity].
Qed.

Lemma sum_from (l : list Z) (a : Z) : fold_left Z.add l a = a + Py.sum l.
Proof.
  unfold Py.sum. revert a. induction l as [|x l IH]; intros a; simpl.
  - lia.
  - rewrite IH, (IH x). lia.
Qed.

Lemma sum_ones {A} (l : list A) :
  Py.sum (map (fun _ => 1) l) = Z.of_nat (List.length l).
Proof.
  induction l as [|x l IH].
  - reflexivity.
  - unfold Py.sum in *. cbn [map fold_left List.length].
    rewrite sum_from. unfold Py.sum. rewrite IH. lia.
Qed.

Lemma range_length (n : Z) : List.length (Py.range n) = Z.to_nat n.
Proof. unfold Py.range. now rewrite length_map, length_seq. Qed.

Lemma range_succ (n : nat) :
  Py.range (Z.of_nat (S n)) = (Py.range (Z.of_nat n) ++ [Z.of_nat n])%list.
Proof.
  unfold Py.range. rewrite !Nat2Z.id, seq_S, map_app. reflexivity.
Qed.

(** *** Rounding and formatting do not depend on how a rational is written *)

Lemma Qltb_comp (a a' b b' : Q) :
  (a == a')%Q -> (b == b')%Q -> Py.Qltb a b = Py.Qltb a' b'.
Proof. intros Ha Hb. unfold Py.Qltb. now rewrite Ha, Hb. Qed.

Lemma round_comp (x y : Q) : (x == y)%Q -> Py.round x = Py.round y.
Proof.
  intros H. unfold Py.round. rewrite (Qfloor_comp _ _ H).
  replace (x - inject_Z (Qfloor y) ?= 1 # 2)%Q
    with (y - inject_Z (Qfloor y) ?= 1 # 2)%Q; [reflexivity|].
  apply Qcompare_comp; [rewrite H|]; reflexivity.
Qed.

Lemma fmt_1f_comp (x y : Q) : (x == y)%Q -> Py.fmt_1f x = Py.fmt_1f y.
Proof.
  intros H. unfold Py.fmt_1f.
  rewrite (Qltb_comp x y 0 0 H (Qeq_refl 0)).
  rewrite (round_comp (x * 10) (y * 10)); [reflexivity|].
  now rewrite H.
Qed.

(** *** Decimal strings determine the number *)

Lemma str_inj (m n : Z) : Py.str m = Py.str n -> m = n.
Proof.
  unfold Py.str. intros H.
  assert (Hnil : forall z, Z.to_int z <> Decimal.Pos Decimal.Nil
                           /\ Z.to_int z <> Decimal.Neg Decimal.Nil).
  { intros [|q|q]; cbn; split; try discriminate;
      intros E; injection E; apply Unsigned.to_uint_nonnil. }
  apply (f_equal NilZero.int_of_string) in H.
  rewrite !NilZero.isi in H by apply Hnil.
  injection H. apply DecimalZ.to_int_inj.
Qed.

Lemma string_length_app (a b : string) :
  String.length (a ++ b) = (String.length a + String.length b)%nat.
Proof. induction a as [|c a IH]; cbn; [reflexivity | now rewrite IH]. Qed.

Lemma string_app_inj (a a' b b' : string) :
  String.length a = String.length a' ->
  a ++ b = a' ++ b' -> a = a' /\ b = b'.
Proof.
  revert a'. induction a as [|c a IH]; intros [|c' a'] Hlen H;
    try discriminate.
  - now split.
  - cbn in H, Hlen. injection H as Hc Ht. injection Hlen as Hlen.
    destruct (IH _ Hlen Ht) as [-> ->]. now subst c'.
Qed.

Lemma in_range (n k : Z) : 0 <= k < n -> In k (Py.range n).
Proof.
  intros Hk. unfold Py.range. apply in_map_iff.
  exists (Z.to_nat k). split; [lia|]. apply in_seq. lia.
Qed.

Lemma fmt_02d_minutes (m : Z) :
  0 <= m < 60 -> String.length (Py.fmt_02d m) = 2%nat.
Proof.
  intros Hm.
  assert (Hall : forallb (fun k => Nat.eqb (String.length (Py.fmt_02d k)) 2)
                   (Py.range 60) = true) by (vm_compute; reflexivity).
  rewrite forallb_forall in Hall.
  apply Nat.eqb_eq, Hall, in_range, Hm.
Qed.

Lemma fmt_02d_inj (m n : Z) :
  0 <= m < 60 -> 0 <= n < 60 -> Py.fmt_02d m = Py.fmt_02d n -> m = n.
Proof.
  intros Hm Hn H.
  assert (Hall : forallb (fun a => forallb (fun b =>
                    implb (String.eqb (Py.fmt_02d a) (Py.fmt_02d b)) (a =? b))
                    (Py.range 60)) (Py.range 60) = true)
    by (vm_compute; reflexivity).
  rewrite forallb_forall in Hall.
  specialize (Hall m (in_range 60 m Hm)).
  rewrite forallb_forall in Hall.
  specialize (Hall n (in_range 60 n Hn)).
  rewrite H, String.eqb_refl in Hall. cbn in Hall. lia.
Qed.

End PyFacts.

(** ** HOSCalculator *)

Section HOSFacts.

Import HOSCalculator.

Lemma driving_minutes_count (es : list TimeEntry) :
  driving_minutes es = 60 * count_status "driving" es.
Proof.
  unfold driving_minutes, count_status, is_driving. rewrite sum_ones. lia.
Qed.

Lemma on_duty_count (es : list TimeEntry) :
  Z.of_nat (List.length (filter is_on_duty es))
  = count_status "driving" es + count_status "on-duty" es.
Proof.
  unfold count_status.
  induction es as [|e es IH]; [reflexivity|].
  cbn [filter].
  assert (Hf : is_on_duty e
               = String.eqb (status e) "driving"
                 || String.eqb (status e) "on-duty")
    by (unfold is_on_duty; cbn [existsb]; now rewrite orb_false_r).
  rewrite Hf.
  destruct (String.eqb_spec (status e) "driving") as [Hd|Hd].
  - assert (Ho : String.eqb (status e) "on-duty" = false)
      by (rewrite Hd; reflexivity).
    rewrite Ho. cbn [orb List.length]. lia.
  - destruct (String.eqb_spec (status e) "on-duty") as [Ho|Ho];
      cbn [orb List.length]; lia.
Qed.

Lemma on_duty_minutes_count (es : list TimeEntry) :
  on_duty_minutes es
  = 60 * (count_status "driving" es + count_status "on-duty" es).
Proof.
  unfold on_duty_minutes. rewrite sum_ones, on_duty_count. lia.
Qed.

Lemma cycle_used_hours_count (es : list TimeEntry) (c : Q) :
  (cycle_used_hours es c
   == c + inject_Z (count_status "driving" es + count_status "on-duty" es))%Q.
Proof.
  unfold cycle_used_hours. rewrite on_duty_minutes_count.
  rewrite inject_Z_mult. field.
Qed.

(** *** The two loops over the entries *)

Lemma continuous_driving_trailing (es : list TimeEntry) :
  continuous_driving es = trailing_streak es.
Proof.
  unfold continuous_driving, trailing_streak.
  rewrite <- fold_left_rev_right.
  induction (rev es) as [|e l IH]; cbn [fold_right leading_driving].
  - reflexivity.
  - rewrite IH. unfold continuous_step. destruct (is_driving e); lia.
Qed.

Lemma trailing_streak_snoc (es : list TimeEntry) (e : TimeEntry) :
  trailing_streak (es ++ [e])
  = if is_driving e then 1 + trailing_streak es else 0.
Proof. unfold trailing_streak. now rewrite rev_app_distr. Qed.

Lemma max_step_loop_mono (es : list TimeEntry) (cd mx : Z) :
  mx <= snd (fold_left max_step es (cd, mx)).
Proof.
  revert cd mx. induction es as [|e es IH]; intros cd mx; cbn [fold_left].
  - cbn. lia.
  - unfold max_step at 2. destruct (is_driving e).
    + etransitivity; [|apply IH]. rewrite max_is_Zmax. lia.
    + apply IH.
Qed.

Lemma max_step_loop_prefix (run post : list TimeEntry) (cd mx : Z) :
  forallb is_driving run = true -> cd <= mx ->
  cd + Z.of_nat (List.length run)
  <= snd (fold_left max_step (run ++ post) (cd, mx)).
Proof.
  revert cd mx. induction run as [|e run IH]; intros cd mx Hrun Hle.
  - cbn [app List.length]. pose proof (max_step_loop_mono post cd mx). lia.
  - cbn [forallb] in Hrun. apply andb_prop in Hrun as [He Hrun].
    cbn [app fold_left List.length]. unfold max_step at 2. rewrite He.
    specialize (IH (cd + 1) (Py.max mx (cd + 1)) Hrun).
    rewrite max_is_Zmax in *. lia.
Qed.

Lemma max_step_loop_bound (pre run post : list TimeEntry) (cd mx : Z) :
  forallb is_driving run = true -> 0 <= cd <= mx ->
  Z.of_nat (List.length run)
  <= snd (fold_left max_step (pre ++ run ++ post) (cd, mx)).
Proof.
  revert cd mx. induction pre as [|e pre IH]; intros cd mx Hrun Hle.
  - cbn [app]. pose proof (max_step_loop_prefix run post cd mx Hrun). lia.
  - cbn [app fold_left]. unfold max_step at 2.
    destruct (is_driving e); apply IH; trivial; rewrite ?max_is_Zmax; lia.
Qed.

Lemma driving_run_extend (n : Z) (es more : list TimeEntry) :
  driving_run n es -> driving_run n (es ++ more).
Proof.
  intros (pre & run & post & -> & Hrun & Hn).
  exists pre, run, (post ++ more)%list.
  now rewrite <- !app_assoc.
Qed.

Lemma max_step_loop_attained (es done last : list TimeEntry) (mx : Z) :
  forallb is_driving last = true ->
  driving_run mx (done ++ last) ->
  driving_run
    (snd (fold_left max_step es (Z.of_nat (List.length last), mx)))
    ((done ++ last) ++ es).
Proof.
  revert done last mx.
  induction es as [|e es IH]; intros done last mx Hlast Hmx.
  - cbn. now rewrite app_nil_r.
  - cbn [fold_left]. unfold max_step at 2.
    replace ((done ++ last) ++ e :: es)%list
      with ((done ++ (last ++ [e])) ++ es)%list
      by (now rewrite <- !app_assoc).
    destruct (is_driving e) eqn:He.
    + replace (Z.of_nat (List.length last) + 1)
        with (Z.of_nat (List.length (last ++ [e])))
        by (rewrite length_app; cbn; lia).
      apply IH.
      * now rewrite forallb_app, Hlast; cbn; rewrite He.
      * rewrite max_is_Zmax.
        destruct (Z.max_spec mx (Z.of_nat (List.length (last ++ [e]))))
          as [[_ ->] | [_ ->]].
        -- exists done, (last ++ [e])%list, [].
           rewrite app_nil_r. repeat split.
           now rewrite forallb_app, Hlast; cbn; rewrite He.
        -- rewrite app_assoc. now apply driving_run_extend.
    + replace (done ++ last ++ [e])%list
        with (((done ++ last) ++ [e]) ++ [])%list
        by (now rewrite app_nil_r, <- app_assoc).
      apply (IH _ [] mx); [reflexivity|].
      rewrite app_nil_r. now apply driving_run_extend.
Qed.

Lemma max_continuous_longest (es : list TimeEntry) :
  longest_streak (max_continuous es) es.
Proof.
  unfold max_continuous. split.
  - apply (max_step_loop_attained es [] [] 0); [reflexivity|].
    now exists [], [], [].
  - intros n (pre & run & post & -> & Hrun & <-).
    apply max_step_loop_bound; [assumption | lia].
Qed.

(** The streak at the end is one of the blocks of driving entries. *)
Lemma trailing_streak_block (es : list TimeEntry) :
  exists pre run,
    es = (pre ++ run)%list
    /\ forallb is_driving run = true
    /\ Z.of_nat (List.length run) = trailing_streak es.
Proof.
  induction es as [|e es IH] using rev_ind.
  - now exists [], [].
  - destruct IH as (pre & run & Hes & Hrun & Hlen).
    rewrite trailing_streak_snoc. destruct (is_driving e) eqn:He.
    + exists pre, (run ++ [e])%list. split; [now rewrite Hes, app_assoc|].
      split; [now rewrite forallb_app, Hrun; cbn; rewrite He|].
      rewrite length_app. cbn [List.length]. lia.
    + exists (es ++ [e])%list, []. now rewrite app_nil_r.
Qed.

Lemma trailing_le_longest (es : list TimeEntry) :
  trailing_streak es <= max_continuous es.
Proof.
  destruct (trailing_streak_block es) as (pre & run & Hes & Hrun & Hlen).
  apply (max_continuous_longest es).
  exists pre, run, []. now rewrite app_nil_r.
Qed.


(** *** What is returned *)

Lemma format_time_inj (m n : Z) : _format_time m = _format_time n -> m = n.
Proof.
  unfold _format_time. intros H.
  assert (Hm : 0 <= m mod 60 < 60) by (apply Z.mod_pos_bound; lia).
  assert (Hn : 0 <= n mod 60 < 60) by (apply Z.mod_pos_bound; lia).
  assert (Hlen := f_equal String.length H).
  rewrite !string_length_app, !fmt_02d_minutes in Hlen by assumption.
  apply string_app_inj in H as [Hh Hrest]; [|lia].
  apply str_inj in Hh.
  apply (string_app_inj "h " "h ") in Hrest as [_ Hrest]; [|reflexivity].
  apply string_app_inj in Hrest as [Hmin _];
    [|now rewrite !fmt_02d_minutes].
  apply fmt_02d_inj in Hmin; trivial.
  rewrite (Z.div_mod m 60), (Z.div_mod n 60) by lia. lia.
Qed.

Lemma violation_types (es : list TimeEntry) (c : Q) :
  map vtype (calculate_violations es c)
  = (when (11 * 60 <? driving_minutes es) "driving_limit"
     ++ when (14 * 60 <? on_duty_minutes es) "duty_limit"
     ++ when (Py.Qltb 70 (cycle_used_hours es c)) "duty_limit"
     ++ when (8 <? max_continuous es) "break_required")%list.
Proof.
  unfold calculate_violations. rewrite !map_app.
  destruct (11 * 60 <? driving_minutes es),
           (14 * 60 <? on_duty_minutes es),
           (Py.Qltb 70 (cycle_used_hours es c)),
           (8 <? max_continuous es); reflexivity.
Qed.

Lemma break_required_flagged (es : list TimeEntry) (c : Q) :
  In "break_required" (map vtype (calculate_violations es c))
  <-> 8 < max_continuous es.
Proof.
  rewrite violation_types.
  destruct (11 * 60 <? driving_minutes es),
           (14 * 60 <? on_duty_minutes es),
           (Py.Qltb 70 (cycle_used_hours es c)),
           (Z.ltb_spec 8 (max_continuous es)); cbn;
    intuition (try discriminate; try lia).
Qed.

Lemma driving_limit_flagged (es : list TimeEntry) (c : Q) :
  In "driving_limit" (map vtype (calculate_violations es c))
  <-> 660 < driving_minutes es.
Proof.
  rewrite violation_types.
  destruct (Z.ltb_spec (11 * 60) (driving_minutes es)),
           (14 * 60 <? on_duty_minutes es),
           (Py.Qltb 70 (cycle_used_hours es c)),
           (8 <? max_continuous es); cbn;
    intuition (try discriminate; try lia).
Qed.

End HOSFacts.

(** ** Claims about HOSCalculator *)

Section HOSClaims.

Import HOSCalculator.







End HOSClaims.

(** C4, as the code has it.  With an empty entries sequence the minute
    counts are zero and [calculate_hos_status] reports drive_time_left
    "11h 00m", on_duty_left "14h 00m" and next_break "8h 00m", whatever
    cycle_hours_before is.  For every cycle_hours_before of at most 70 it
    reports is_compliant true and [calculate_violations] returns the empty
    list; above 70 it reports is_compliant false and the only violation is the
    duty_limit of the 70-hour cycle. *)
Theorem empty_entries_within_cycle (c : Q) :
  let st := HOSCalculator.calculate_hos_status [] c in
  HOSCalculator.driving_minutes [] = 0
  /\ HOSCalculator.on_duty_minutes [] = 0
  /\ HOSCalculator.continuous_driving [] = 0
  /\ HOSCalculator.drive_time_left st = "11h 00m"
  /\ HOSCalculator.on_duty_left st = "14h 00m"
  /\ HOSCalculator.next_break st = "8h 00m"
  /\ ((c <= 70)%Q ->
      HOSCalculator.is_compliant st = true
      /\ HOSCalculator.calculate_violations [] c = [])
  /\ ((70 < c)%Q ->
      HOSCalculator.is_compliant st = false
      /\ map HOSCalculator.vtype (HOSCalculator.calculate_violations [] c)
         = ["duty_limit"]).
Proof.
  intros st.
  assert (Hcycle : (HOSCalculator.cycle_used_hours [] c == c)%Q)
    by (unfold HOSCalculator.cycle_used_hours; cbn; field).
  do 6 (split; [reflexivity|]).
  split; intros Hc.
  - split.
    + subst st.
      cbn [HOSCalculator.is_compliant HOSCalculator.calculate_hos_status].
      rewrite !andb_true_iff, Qle_bool_iff, Hcycle.
      repeat split; trivial.
    + unfold HOSCalculator.calculate_violations.
      replace (Py.Qltb 70 (HOSCalculator.cycle_used_hours [] c)) with false;
        [reflexivity|].
      symmetry. apply Qltb_ge. now rewrite Hcycle.
  - split.
    + subst st.
      cbn [HOSCalculator.is_compliant HOSCalculator.calculate_hos_status].
      replace (Qle_bool (HOSCalculator.cycle_used_hours [] c) 70) with false;
        [reflexivity|].
      symmetry. apply not_true_iff_false. rewrite Qle_bool_iff, Hcycle.
      now apply Qlt_not_le.
    + rewrite violation_types.
      replace (Py.Qltb 70 (HOSCalculator.cycle_used_hours [] c)) with true;
        [reflexivity|].
      symmetry. apply Qltb_lt. now rewrite Hcycle.
Qed.

(** The theorem applies at a full cycle of exactly 70 hours. *)
Lemma empty_entries_within_cycle_witness :
  (70 <= 70)%Q
  /\ HOSCalculator.is_compliant (HOSCalculator.calculate_hos_status [] 70) = true
  /\ HOSCalculator.calculate_violations [] 70 = [].
Proof.
  assert (H : (70 <= 70)%Q) by (unfold Qle; simpl; lia).
  split; [exact H|].
  destruct (empty_entries_within_cycle 70)
    as (_ & _ & _ & _ & _ & _ & Hwithin & _).
  exact (Hwithin H).
Defined.

(** C4 as stated fails: with 71 cycle hours already used, empty entries are
    reported as not compliant and one cycle violation is returned. *)
Lemma empty_entries_over_cycle :
  HOSCalculator.is_compliant (HOSCalculator.calculate_hos_status [] 71) = false
  /\ HOSCalculator.calculate_violations [] 71
     = [ {| HOSCalculator.vtype := "duty_limit";
            HOSCalculator.description := "Exceeded 70-hour cycle limit by 1.0 hours";
            HOSCalculator.severity := "violation" |} ].
Proof. split; reflexivity. Qed.

(** ** ELDLogGenerator: one day *)

Section OneDayFacts.

Import ELDLogGenerator.

Lemma int_floor (x : Q) : (0 <= x)%Q -> Py.int x = Qfloor x.
Proof.
  destruct x as [n d]. unfold Qle, Py.int, Qfloor. cbn. intros Hn.
  apply Z.quot_div_nonneg; lia.
Qed.

Lemma int_comp (x y : Q) : (0 <= x)%Q -> (x == y)%Q -> Py.int x = Py.int y.
Proof.
  intros Hx Hxy. rewrite !int_floor; [now apply Qfloor_comp | | assumption].
  now rewrite <- Hxy.
Qed.

Lemma inject_Z_sub (a b : Z) : (inject_Z (a - b) == inject_Z a - inject_Z b)%Q.
Proof. unfold Z.sub. rewrite inject_Z_plus, inject_Z_opp. ring. Qed.

(** An integer is below a rational iff it is below its ceiling. *)
Lemma lt_ceiling (j : Z) (x : Q) : (inject_Z j < x)%Q <-> j < Qceiling x.
Proof.
  split; intros H.
  - rewrite Zlt_Qlt. eapply Qlt_le_trans; [exact H | apply Qle_ceiling].
  - eapply Qle_lt_trans; [|apply Qceiling_lt].
    rewrite <- Zle_Qle. lia.
Qed.

(** An integer is at most a rational iff it is at most its floor. *)
Lemma le_floor (j : Z) (x : Q) : (inject_Z j <= x)%Q <-> j <= Qfloor x.
Proof.
  split; intros H.
  - assert (Hlt : (inject_Z j < inject_Z (Qfloor x + 1))%Q)
      by (eapply Qle_lt_trans; [exact H | apply Qlt_floor]).
    rewrite <- Zlt_Qlt in Hlt. lia.
  - eapply Qle_trans; [|apply Qfloor_le]. now rewrite <- Zle_Qle.
Qed.

Lemma hour_loop (h : Z) (dh : Q) (l : list Z) (st : list TimeEntry * list string) :
  fold_left (hour_step h dh) l st
  = ((fst st ++ map (fun k => mkEntry k (hour_status h dh k)) l)%list,
     (snd st ++ flat_map (hour_remarks h dh) l)%list).
Proof.
  revert st. induction l as [|k l IH]; intros [es rs]; cbn [fold_left map flat_map fst snd].
  - now rewrite !app_nil_r.
  - rewrite IH. unfold hour_step. cbn [fst snd].
    now rewrite <- !app_assoc.
Qed.

Lemma time_entries_by_hour (start : datetime) (dist dh : Q) :
  time_entries (generate_log_for_trip start dist dh)
  = map (fun k => mkEntry k (hour_status (dt_hour start) dh k)) (Py.range 24).
Proof.
  unfold generate_log_for_trip. cbn [time_entries]. now rewrite hour_loop.
Qed.


(** Within the day, the status of an hour only depends on the driving hours
    through their ceiling, and not beyond 24. *)
Lemma hour_status_ceiling (h : Z) (dh : Q) (k : Z) :
  0 <= h -> k < 24 ->
  hour_status h dh k
  = hour_status h (inject_Z (Z.min (Qceiling dh) 24)) k.
Proof.
  intros Hh Hk. unfold hour_status.
  assert (E1 : Py.Qltb (inject_Z k) (inject_Z (h + 1) + dh)
               = Py.Qltb (inject_Z k)
                   (inject_Z (h + 1) + inject_Z (Z.min (Qceiling dh) 24))).
  { apply eq_true_iff_eq. rewrite !Qltb_lt.
    rewrite <- inject_Z_plus, <- Zlt_Qlt.
    assert (Hiff : (inject_Z k < inject_Z (h + 1) + dh)%Q
                   <-> (inject_Z (k - (h + 1)) < dh)%Q).
    { rewrite inject_Z_sub. split; intros; lra. }
    rewrite Hiff, lt_ceiling. lia. }
  assert (E2 : Py.Qltb (inject_Z k) (inject_Z (h + 1) + dh + 1)
               = Py.Qltb (inject_Z k)
                   (inject_Z (h + 1) + inject_Z (Z.min (Qceiling dh) 24) + 1)).
  { apply eq_true_iff_eq. rewrite !Qltb_lt.
    change 1%Q with (inject_Z 1) at 2.
    rewrite <- !inject_Z_plus, <- Zlt_Qlt.
    assert (Hiff : (inject_Z k < inject_Z (h + 1) + dh + 1)%Q
                   <-> (inject_Z (k - (h + 1) - 1) < dh)%Q).
    { rewrite !inject_Z_sub. change (inject_Z 1) with 1%Q.
      split; intros; lra. }
    rewrite Hiff, lt_ceiling. lia. }
  now rewrite E1, E2.
Qed.


Lemma range_in_inv (n k : Z) : In k (Py.range n) -> 0 <= k < n.
Proof.
  unfold Py.range. rewrite in_map_iff. intros (j & <- & Hj).
  apply in_seq in Hj. lia.
Qed.


End OneDayFacts.

(** ** Claims about a single day's log *)

Section OneDayClaims.

Import ELDLogGenerator.







End OneDayClaims.

(** ** ELDLogGenerator: the loop over the days *)

Section MultiDayFacts.

Import ELDLogGenerator.

Variables D T : Q.
Variable start : datetime.

Lemma run_days_succ (k : nat) (st : LoopState) :
  run_days D T (S k) st = loop_body D T (run_days D T k st).
Proof.
  revert st. induction k as [|k IH]; intros st; [reflexivity|].
  cbn [run_days] in *. now rewrite <- IH.
Qed.

(** The loop returns the state reached after [k] iterations once [k] is the
    first number of iterations after which no hours remain, and not before:
    it needs exactly [k] iterations. *)
Lemma while_loop_run (k : nat) (st : LoopState) (fuel : nat) :
  Qeq_bool T 0 = false ->
  (forall j, (j < k)%nat -> (0 < remaining_hours (run_days D T j st))%Q) ->
  (remaining_hours (run_days D T k st) <= 0)%Q ->
  while_loop D T fuel st
  = if (k <=? fuel)%nat then Returned (run_days D T k st) else OutOfFuel.
Proof.
  intros HT. revert st fuel.
  induction k as [|k IH]; intros st fuel Hpos Hend.
  - cbn [run_days] in Hend. apply Qltb_ge in Hend.
    destruct fuel; cbn [while_loop]; now rewrite Hend.
  - assert (H0 : Py.Qltb 0 (remaining_hours st) = true)
      by (apply Qltb_lt, (Hpos 0%nat); lia).
    destruct fuel as [|fuel]; cbn [while_loop]; rewrite H0; [reflexivity|].
    rewrite HT. rewrite IH.
    + reflexivity.
    + intros j Hj. apply (Hpos (S j)). lia.
    + exact Hend.
Qed.

Lemma logs_run_days (k : nat) (st : LoopState) :
  logs (run_days D T k st)
  = (logs st ++ map (fun j => day_log D T (run_days D T j st)) (seq 0 k))%list.
Proof.
  revert st. induction k as [|k IH]; intros st.
  - cbn. now rewrite app_nil_r.
  - cbn [run_days]. rewrite IH. cbn [logs loop_body seq map run_days].
    rewrite <- app_assoc, <- seq_shift, map_map. reflexivity.
Qed.

Lemma remaining_succ (k : nat) :
  (remaining_hours (day_state start D T (S k))
   == remaining_hours (day_state start D T k) - daily_driving_hours (day_state start D T k))%Q.
Proof. unfold day_state. rewrite run_days_succ. reflexivity. Qed.

Hypothesis T_pos : (0 < T)%Q.

Lemma days_needed_spec (j : nat) :
  (j < days_needed T)%nat <-> (inject_Z (Z.of_nat j) * 11 < T)%Q.
Proof.
  unfold days_needed.
  assert (Hiff : (inject_Z (Z.of_nat j) * 11 < T)%Q
                 <-> (inject_Z (Z.of_nat j) < T / 11)%Q).
  { split; intros H.
    - apply Qlt_shift_div_l; [reflexivity | exact H].
    - apply (Qmult_lt_r _ _ 11) in H; [|reflexivity].
      assert (E : (T / 11 * 11 == T)%Q) by (field; discriminate).
      now rewrite E in H. }
  rewrite Hiff, lt_ceiling. lia.
Qed.

Lemma days_needed_pos : (1 <= days_needed T)%nat.
Proof.
  apply (days_needed_spec 0). cbn. now rewrite Qmult_0_l.
Qed.

Lemma days_needed_upper : (T <= inject_Z (Z.of_nat (days_needed T)) * 11)%Q.
Proof.
  apply Qnot_lt_le. intros H. apply days_needed_spec in H. lia.
Qed.

(** Before each of the days, what remains is the total less eleven hours for
    every day gone by. *)
Lemma remaining_before (k : nat) :
  (k < days_needed T)%nat ->
  (remaining_hours (day_state start D T k) == T - 11 * inject_Z (Z.of_nat k))%Q.
Proof.
  induction k as [|k IH]; intros Hk.
  - cbn. ring.
  - rewrite remaining_succ.
    assert (Hk' : (k < days_needed T)%nat) by lia.
    specialize (IH Hk').
    apply days_needed_spec in Hk.
    rewrite Nat2Z.inj_succ, <- Z.add_1_r, inject_Z_plus in Hk |- *.
    change (inject_Z 1) with 1%Q in *.
    unfold daily_driving_hours.
    destruct (min_cases 11 (remaining_hours (day_state start D T k))) as [[Hlt _] | [_ ->]].
    + exfalso. rewrite IH in Hlt. lra.
    + rewrite IH. ring.
Qed.


(** After the last day nothing remains. *)
Lemma remaining_after_last : (remaining_hours (day_state start D T (days_needed T)) == 0)%Q.
Proof.
  pose proof days_needed_pos as Hpos. pose proof days_needed_upper as Hup.
  destruct (days_needed T) as [|n] eqn:En; [lia|].
  assert (Hn : (n < days_needed T)%nat) by lia.
  rewrite remaining_succ. pose proof (remaining_before n Hn) as Hrem.
  rewrite Nat2Z.inj_succ, <- Z.add_1_r, inject_Z_plus in Hup.
  change (inject_Z 1) with 1%Q in Hup.
  unfold daily_driving_hours.
  destruct (min_cases 11 (remaining_hours (day_state start D T n))) as [[Hlt ->] | [Hle ->]].
  - ring.
  - rewrite Hrem in *. lra.
Qed.

Lemma total_nonzero : Qeq_bool T 0 = false.
Proof.
  apply not_true_iff_false. rewrite Qeq_bool_iff. intros E.
  rewrite E in T_pos. discriminate.
Qed.

(** The loop ends after [days_needed T] iterations, and not before. *)
Lemma while_loop_result (fuel : nat) :
  while_loop D T fuel (initial_state start D T)
  = if (days_needed T <=? fuel)%nat
    then Returned (day_state start D T (days_needed T)) else OutOfFuel.
Proof.
  apply while_loop_run.
  - apply total_nonzero.
  - intros j Hj. fold (day_state start D T j).
    rewrite (remaining_before j Hj).
    apply days_needed_spec in Hj. lra.
  - fold (day_state start D T (days_needed T)).
    rewrite remaining_after_last. apply Qle_refl.
Qed.

Lemma multi_day_logs_result (fuel : nat) (pickup dropoff : string) :
  generate_multi_day_logs fuel start D T pickup dropoff
  = if (days_needed T <=? fuel)%nat
    then Returned (map (fun j => day_log D T (day_state start D T j)) (seq 0 (days_needed T)))
    else OutOfFuel.
Proof.
  unfold generate_multi_day_logs. rewrite while_loop_result.
  destruct (days_needed T <=? fuel)%nat; [|reflexivity].
  unfold day_state at 1. rewrite logs_run_days. reflexivity.
Qed.

End MultiDayFacts.

Section MultiDaySums.

Import ELDLogGenerator.



End MultiDaySums.

(** ** Claims about multi-day logs *)

Section MultiDayClaims.

Import ELDLogGenerator.





End MultiDayClaims.

(** ** Claims about the ranges of the fields *)

Section RangeClaims.

Import ELDLogGenerator.






End RangeClaims.

(** ** RouteCalculator._generate_stops *)

Section StopFacts.

Import RouteCalculator.

Lemma int_inject_Z (z : Z) : Py.int (inject_Z z) = z.
Proof. unfold Py.int. cbn. apply Z.quot_1_r. Qed.

(** A loop that appends one stop per index numbers them consecutively. *)
Lemma append_stops_loop (mk : Z -> Z -> Stop) (m : nat) (stops : list Stop)
    (stop_id : Z) :
  fold_left (append_stop mk) (Py.range (Z.of_nat m)) (stops, stop_id)
  = ((stops ++ map (fun i => mk i (stop_id + i)) (Py.range (Z.of_nat m)))%list,
     stop_id + Z.of_nat m).
Proof.
  induction m as [|m IH].
  - cbn. rewrite app_nil_r. f_equal. lia.
  - rewrite range_succ, fold_left_app, IH, map_app.
    cbn [fold_left append_stop fst snd map]. unfold append_stop. cbn [fst snd].
    rewrite <- app_assoc. f_equal. lia.
Qed.

Lemma append_stops_range (mk : Z -> Z -> Stop) (n : Z) (stops : list Stop)
    (stop_id : Z) :
  0 <= n ->
  fold_left (append_stop mk) (Py.range n) (stops, stop_id)
  = ((stops ++ map (fun i => mk i (stop_id + i)) (Py.range n))%list,
     stop_id + n).
Proof.
  intros Hn. rewrite <- (Z2Nat.id n) by exact Hn. apply append_stops_loop.
Qed.




End StopFacts.

Section StopClaims.

Import RouteCalculator.



End StopClaims.

(** * Further properties of the calculators *)

(** ** HOSCalculator *)

Section HOSMore.

Import HOSCalculator.

Lemma driving_minutes_app (a b : list TimeEntry) :
  driving_minutes (a ++ b) = driving_minutes a + driving_minutes b.
Proof.
  unfold driving_minutes. rewrite filter_app, !sum_ones, length_app.
  lia.
Qed.

Lemma on_duty_minutes_app (a b : list TimeEntry) :
  on_duty_minutes (a ++ b) = on_duty_minutes a + on_duty_minutes b.
Proof.
  unfold on_duty_minutes. rewrite filter_app, !sum_ones, length_app.
  lia.
Qed.

Lemma driving_minutes_nonneg (es : list TimeEntry) : 0 <= driving_minutes es.
Proof. unfold driving_minutes. rewrite sum_ones. lia. Qed.

Lemma on_duty_minutes_nonneg (es : list TimeEntry) : 0 <= on_duty_minutes es.
Proof. unfold on_duty_minutes. rewrite sum_ones. lia. Qed.

Lemma max_continuous_extend (pre es post : list TimeEntry) :
  max_continuous es <= max_continuous (pre ++ es ++ post).
Proof.
  destruct (max_continuous_longest es) as [(a & run & b & Hes & Hrun & Hlen) _].
  apply (max_continuous_longest (pre ++ es ++ post)).
  exists (pre ++ a)%list, run, (b ++ post)%list.
  split; [|now split].
  rewrite Hes at 1. now rewrite <- !app_assoc.
Qed.

Lemma format_whole_hours (h : Z) : _format_time (60 * h) = Py.str h ++ "h 00m".
Proof.
  unfold _format_time.
  rewrite (Z.mul_comm 60 h), Z.div_mul, Z.mod_mul by lia.
  reflexivity.
Qed.


End HOSMore.

Section HOSExtras.

Import HOSCalculator.

(** [_format_time] never renders two different numbers of minutes the same
    way: the hours are written in full and the minutes always take two
    characters. *)
Theorem format_time_unambiguous (m n : Z) :
  (_format_time m = _format_time n <-> m = n)
  /\ (forall h mi, 0 <= mi < 60 ->
        _format_time (60 * h + mi) = Py.str h ++ "h " ++ Py.fmt_02d mi ++ "m"
        /\ String.length (Py.fmt_02d mi) = 2%nat).
Proof.
  split.
  - split; [apply format_time_inj | now intros ->].
  - intros h mi Hmi. split; [|now apply fmt_02d_minutes].
    unfold _format_time.
    replace ((60 * h + mi) / 60) with h
      by (apply (Z.div_unique _ _ _ mi); lia).
    replace ((60 * h + mi) mod 60) with mi
      by (apply (Z.mod_unique _ _ h); lia).
    reflexivity.
Qed.

(** When [calculate_violations] finds nothing, [calculate_hos_status] reports
    is_compliant true.  The converse fails only through the break rule: when
    the status is compliant, any violation reported for the same entries is a
    single break_required one. *)
Theorem no_violation_implies_compliant (es : list TimeEntry) (c : Q) :
  (calculate_violations es c = [] ->
   is_compliant (calculate_hos_status es c) = true)
  /\ (is_compliant (calculate_hos_status es c) = true ->
      map vtype (calculate_violations es c) = []
      \/ map vtype (calculate_violations es c) = ["break_required"]).
Proof.
  pose proof (violation_types es c) as Ht.
  pose proof (trailing_le_longest es) as Hle.
  rewrite <- continuous_driving_trailing in Hle.
  cbn [is_compliant calculate_hos_status].
  rewrite !andb_true_iff, !Z.leb_le, Qle_bool_iff.
  split.
  - intros Hnil. rewrite Hnil in Ht. cbn [map] in Ht.
    destruct (Z.ltb_spec (11 * 60) (driving_minutes es)); [discriminate|].
    destruct (Z.ltb_spec (14 * 60) (on_duty_minutes es)); [discriminate|].
    destruct (Py.Qltb 70 (cycle_used_hours es c)) eqn:Hc; [discriminate|].
    destruct (Z.ltb_spec 8 (max_continuous es)); [discriminate|].
    apply Qltb_ge in Hc. repeat split; trivial; lia.
  - intros [[[Hd Ho] Hc] _]. rewrite Ht.
    replace (11 * 60 <? driving_minutes es) with false by lia.
    replace (14 * 60 <? on_duty_minutes es) with false by lia.
    replace (Py.Qltb 70 (cycle_used_hours es c)) with false
      by (symmetry; now apply Qltb_ge).
    destruct (8 <? max_continuous es); [right | left]; reflexivity.
Qed.

(** A day of three driving hours has no violation and is compliant. *)
Lemma no_violation_implies_compliant_witness :
  calculate_violations (sample_day 3) 10 = []
  /\ is_compliant (calculate_hos_status (sample_day 3) 10) = true.
Proof.
  assert (H : calculate_violations (sample_day 3) 10 = []) by reflexivity.
  split; [exact H|].
  exact (proj1 (no_violation_implies_compliant (sample_day 3) 10) H).
Defined.

(** Entries added before or after a sequence never give time back and never
    clear a violation: the minutes left to drive and on duty do not grow, the
    cycle hours used do not shrink, and every type of violation reported for
    the sequence is still reported for the longer one. *)
Theorem more_entries_keep_violations (pre es post : list TimeEntry) (c : Q) :
  let longer := (pre ++ es ++ post)%list in
  drive_time_left_minutes longer <= drive_time_left_minutes es
  /\ on_duty_left_minutes longer <= on_duty_left_minutes es
  /\ (cycle_used_hours es c <= cycle_used_hours longer c)%Q
  /\ (forall t, In t (map vtype (calculate_violations es c)) ->
                In t (map vtype (calculate_violations longer c))).
Proof.
  intros longer.
  assert (Hd : driving_minutes es <= driving_minutes longer).
  { unfold longer. rewrite !driving_minutes_app.
    pose proof (driving_minutes_nonneg pre).
    pose proof (driving_minutes_nonneg post). lia. }
  assert (Ho : on_duty_minutes es <= on_duty_minutes longer).
  { unfold longer. rewrite !on_duty_minutes_app.
    pose proof (on_duty_minutes_nonneg pre).
    pose proof (on_duty_minutes_nonneg post). lia. }
  assert (Hm : max_continuous es <= max_continuous longer)
    by apply max_continuous_extend.
  assert (Hc : (cycle_used_hours es c <= cycle_used_hours longer c)%Q).
  { unfold cycle_used_hours. rewrite Zle_Qle in Ho.
    apply Qplus_le_r. apply Qmult_le_compat_r; [exact Ho | discriminate]. }
  split; [unfold drive_time_left_minutes; rewrite !max_is_Zmax; lia|].
  split; [unfold on_duty_left_minutes; rewrite !max_is_Zmax; lia|].
  split; [exact Hc|].
  intros t. rewrite !violation_types, !in_app_iff.
  intros [H | [H | [H | H]]].
  - left. destruct (Z.ltb_spec (11 * 60) (driving_minutes es)); [|destruct H].
    now replace (11 * 60 <? driving_minutes longer) with true by lia.
  - right; left.
    destruct (Z.ltb_spec (14 * 60) (on_duty_minutes es)); [|destruct H].
    now replace (14 * 60 <? on_duty_minutes longer) with true by lia.
  - right; right; left.
    destruct (Py.Qltb 70 (cycle_used_hours es c)) eqn:E; [|destruct H].
    apply Qltb_lt in E.
    replace (Py.Qltb 70 (cycle_used_hours longer c)) with true; [exact H|].
    symmetry. apply Qltb_lt. eapply Qlt_le_trans; eassumption.
  - right; right; right.
    destruct (Z.ltb_spec 8 (max_continuous es)); [|destruct H].
    now replace (8 <? max_continuous longer) with true by lia.
Qed.

(** The theorem applies to twelve driving hours with a day of three before
    them: the driving limit is still reported. *)
Lemma more_entries_keep_violations_witness :
  In "driving_limit" (map vtype (calculate_violations (sample_day 12) 10))
  /\ In "driving_limit"
       (map vtype (calculate_violations
                     (sample_day 3 ++ sample_day 12 ++ []) 10)).
Proof.
  assert (H : In "driving_limit"
                (map vtype (calculate_violations (sample_day 12) 10)))
    by (left; reflexivity).
  split; [exact H|].
  destruct (more_entries_keep_violations (sample_day 3) (sample_day 12) [] 10)
    as (_ & _ & _ & Hkeep).
  exact (Hkeep "driving_limit" H).
Defined.

Lemma same_class_filter_driving (es es' : list TimeEntry) :
  Forall2 same_duty_class es es' ->
  List.length (filter is_driving es) = List.length (filter is_driving es')
  /\ List.length (filter is_on_duty es) = List.length (filter is_on_duty es').
Proof.
  induction 1 as [|e e' es es' [Hd Ho] _ [IHd IHo]]; [now split|].
  cbn [filter]. rewrite Hd, Ho.
  destruct (is_driving e'), (is_on_duty e'); cbn [List.length]; split; lia.
Qed.

Lemma same_class_loops (es es' : list TimeEntry) :
  Forall2 same_duty_class es es' ->
  forall st, fold_left max_step es st = fold_left max_step es' st.
Proof.
  induction 1 as [|e e' es es' [Hd _] _ IH]; intros st; [reflexivity|].
  cbn [fold_left]. rewrite <- IH. unfold max_step. now rewrite Hd.
Qed.

Lemma same_class_continuous (es es' : list TimeEntry) :
  Forall2 same_duty_class es es' ->
  forall n, fold_left continuous_step es n = fold_left continuous_step es' n.
Proof.
  induction 1 as [|e e' es es' [Hd _] _ IH]; intros n; [reflexivity|].
  cbn [fold_left]. rewrite <- IH. unfold continuous_step. now rewrite Hd.
Qed.

(** The calculators read nothing of an entry but whether its status is
    'driving' or 'on-duty': the hour key is never looked at, and 'off-duty',
    'sleeper-berth', a missing status or any other text are all treated
    alike.  Two sequences that agree entry by entry on that give the same
    status and the same violations. *)
Theorem same_class_same_result (es es' : list TimeEntry) (c : Q) :
  Forall2 same_duty_class es es' ->
  calculate_hos_status es c = calculate_hos_status es' c
  /\ calculate_violations es c = calculate_violations es' c.
Proof.
  intros H.
  destruct (same_class_filter_driving es es' H) as [Hd Ho].
  assert (Hdm : driving_minutes es = driving_minutes es')
    by (unfold driving_minutes; now rewrite !sum_ones, Hd).
  assert (Hom : on_duty_minutes es = on_duty_minutes es')
    by (unfold on_duty_minutes; now rewrite !sum_ones, Ho).
  assert (Hcd : continuous_driving es = continuous_driving es')
    by (apply (same_class_continuous es es' H)).
  assert (Hmx : max_continuous es = max_continuous es')
    by (unfold max_continuous; now rewrite (same_class_loops es es' H)).
  unfold calculate_hos_status, calculate_violations, drive_time_left_minutes,
    on_duty_left_minutes, next_break_minutes, cycle_used_hours.
  now rewrite Hdm, Hom, Hcd, Hmx.
Qed.

(** The theorem applies to a night in the sleeper berth logged as off duty,
    with the hours renumbered. *)
Lemma same_class_same_result_witness :
  calculate_hos_status
    [mkEntry 0 "sleeper-berth"; mkEntry 1 "driving"; mkEntry 2 "on-duty"] 10
  = calculate_hos_status
      [mkEntry 7 "off-duty"; mkEntry 7 "driving"; mkEntry 7 "on-duty"] 10.
Proof.
  apply same_class_same_result.
  repeat constructor.
Defined.



(** The three times left are always whole hours within their allotment:
    at most 11 hours to drive, 14 on duty and 8 before the next break, and
    never negative. *)
Theorem time_left_whole_hours (es : list TimeEntry) (c : Q) :
  let st := calculate_hos_status es c in
  (exists h, 0 <= h <= 11 /\ drive_time_left st = Py.str h ++ "h 00m")
  /\ (exists h, 0 <= h <= 14 /\ on_duty_left st = Py.str h ++ "h 00m")
  /\ (exists h, 0 <= h <= 8 /\ next_break st = Py.str h ++ "h 00m").
Proof.
  intros st. subst st.
  cbn [drive_time_left on_duty_left next_break calculate_hos_status].
  unfold drive_time_left_minutes, on_duty_left_minutes, next_break_minutes.
  rewrite !max_is_Zmax, continuous_driving_trailing.
  rewrite driving_minutes_count, on_duty_minutes_count.
  set (d := count_status "driving" es).
  set (o := count_status "on-duty" es).
  assert (Hd : 0 <= d) by (unfold d, count_status; lia).
  assert (Ho : 0 <= o) by (unfold o, count_status; lia).
  assert (Ht : 0 <= trailing_streak es).
  { destruct (trailing_streak_block es) as (_ & run & _ & _ & <-). lia. }
  split; [|split].
  - exists (Z.max 0 (11 - d)). split; [lia|].
    rewrite <- format_whole_hours. f_equal. lia.
  - exists (Z.max 0 (14 - (d + o))). split; [lia|].
    rewrite <- format_whole_hours. f_equal. lia.
  - exists (Z.max 0 (8 - trailing_streak es)). split; [lia|].
    rewrite <- format_whole_hours. f_equal. lia.
Qed.

End HOSExtras.

(** ** ELDLogGenerator *)

Section OneDayMore.

Import ELDLogGenerator.

Lemma int_nonpos (x : Q) : (x <= 0)%Q -> Py.int x <= 0.
Proof.
  destruct x as [n d]. unfold Qle, Py.int. cbn. intros Hn.
  replace n with (- - n) by lia. rewrite Z.quot_opp_l by lia.
  assert (0 <= Z.quot (- n) (Z.pos d)) by (apply Z.quot_pos; lia).
  lia.
Qed.

Lemma int_upper (x : Q) (b : Z) : 0 <= b -> (x <= inject_Z b)%Q -> Py.int x <= b.
Proof.
  intros Hb Hx. destruct (Qlt_le_dec x 0) as [Hneg|Hpos].
  - pose proof (int_nonpos x (Qlt_le_weak _ _ Hneg)). lia.
  - rewrite int_floor by exact Hpos.
    rewrite <- (Qfloor_Z b). now apply Qfloor_resp_le.
Qed.

(** The entries of a day are those of a whole number of driving hours, the
    ceiling of the real one, capped at 24. *)
Lemma time_entries_by_ceiling (start : datetime) (dist dh : Q) :
  0 <= dt_hour start ->
  time_entries (generate_log_for_trip start dist dh)
  = map (fun k => mkEntry k (hour_status (dt_hour start)
                               (inject_Z (Z.min (Qceiling dh) 24)) k))
        (Py.range 24).
Proof.
  intros Hh. rewrite time_entries_by_hour. apply map_ext_in.
  intros k Hk. apply range_in_inv in Hk. f_equal.
  apply hour_status_ceiling; lia.
Qed.

Lemma ceiling_capped (dh : Q) :
  (0 <= dh)%Q -> 0 <= Z.min (Qceiling dh) 24 < 25.
Proof.
  intros Hdh.
  assert (0 <= Qceiling dh)
    by (change 0 with (Qceiling 0); now apply Qceiling_resp_le).
  lia.
Qed.

(** The driving entries of a generated day are consecutive, and the on-duty
    ones are two more when they fit. *)
Lemma generated_day_streaks (start : datetime) (dist dh : Q) :
  0 <= dt_hour start <= 23 -> (0 <= dh)%Q ->
  let es := time_entries (generate_log_for_trip start dist dh) in
  HOSCalculator.max_continuous es = Z.min (Qceiling dh) (23 - dt_hour start)
  /\ HOSCalculator.driving_minutes es
     = 60 * Z.min (Qceiling dh) (23 - dt_hour start)
  /\ HOSCalculator.on_duty_minutes es
     = 60 * Z.min (Qceiling dh + 2) (24 - dt_hour start).
Proof.
  intros Hh Hdh es. subst es.
  rewrite time_entries_by_ceiling by lia.
  set (h := dt_hour start) in *. set (c := Z.min (Qceiling dh) 24).
  assert (Hc : 0 <= c < 25) by (apply ceiling_capped, Hdh).
  assert (Hall : forallb (fun a => forallb (fun b =>
      let es := map (fun k => mkEntry k (hour_status a (inject_Z b) k))
                    (Py.range 24) in
      (HOSCalculator.max_continuous es =? Z.min b (23 - a))
      && (HOSCalculator.driving_minutes es =? 60 * Z.min b (23 - a))
      && (HOSCalculator.on_duty_minutes es =? 60 * Z.min (b + 2) (24 - a)))
      (Py.range 25)) (Py.range 24) = true)
    by (vm_compute; reflexivity).
  rewrite forallb_forall in Hall.
  specialize (Hall h (in_range 24 h ltac:(lia))).
  rewrite forallb_forall in Hall.
  specialize (Hall c (in_range 25 c Hc)).
  cbv zeta in Hall. rewrite !andb_true_iff, !Z.eqb_eq in Hall.
  destruct Hall as [[Hm Hd] Ho]. rewrite Hm, Hd, Ho. unfold c. lia.
Qed.

End OneDayMore.

Section OneDayExtras.

Import ELDLogGenerator.

Lemma compliant_within_eleven_hours (start : datetime) (dist dh : Q) :
  (dh <= 11)%Q ->
  is_compliant (generate_log_for_trip start dist dh) = true
  /\ on_duty_time (generate_log_for_trip start dist dh) <= 780.
Proof.
  intros Hdh.
  assert (Hint : Py.int (dh * 60) <= 660).
  { apply int_upper; [lia|]. change (inject_Z 660) with 660%Q. lra. }
  split.
  - cbn [is_compliant on_duty_time generate_log_for_trip].
    rewrite andb_true_iff, Qle_bool_iff, Z.leb_le.
    split; [exact Hdh | lia].
  - cbn [on_duty_time generate_log_for_trip]. lia.
Qed.

(** A generated day is marked compliant exactly when its driving hours are at
    most 11, whatever their sign: the second test, on_duty_time <= 840, never
    decides, since on_duty_time is at most 780 whenever the first one
    passes. *)
Theorem log_compliant_iff_eleven_hours (start : datetime) (dist dh : Q) :
  let log := generate_log_for_trip start dist dh in
  (is_compliant log = true <-> (dh <= 11)%Q)
  /\ ((dh <= 11)%Q -> on_duty_time log <= 780).
Proof.
  intros log. split.
  - split.
    + subst log. cbn [is_compliant generate_log_for_trip].
      rewrite andb_true_iff, Qle_bool_iff. now intros [H _].
    + intros Hdh. now apply compliant_within_eleven_hours.
  - intros Hdh. now apply compliant_within_eleven_hours.
Qed.

(** The theorem applies to a negative number of driving hours as well: the
    day is marked compliant. *)
Lemma log_compliant_iff_eleven_hours_witness :
  (-3 <= 11)%Q
  /\ is_compliant (generate_log_for_trip (mkDatetime 0 8 0) 100 (-3)) = true.
Proof.
  assert (H : (-3 <= 11)%Q) by discriminate.
  split; [exact H|].
  exact (proj2 (proj1 (log_compliant_iff_eleven_hours
                         (mkDatetime 0 8 0) 100 (-3))) H).
Defined.

Lemma generated_day_violation_types (start : datetime) (dist dh c : Q) :
  0 <= dt_hour start <= 23 -> (0 <= dh)%Q -> (dh <= 11)%Q ->
  let es := time_entries (generate_log_for_trip start dist dh) in
  let types := map HOSCalculator.vtype (HOSCalculator.calculate_violations es c) in
  ~ In "driving_limit" types
  /\ (In "duty_limit" types <-> (70 < HOSCalculator.cycle_used_hours es c)%Q)
  /\ (In "break_required" types <-> 9 <= Qceiling dh /\ dt_hour start <= 14).
Proof.
  intros Hh Hdh H11 es types.
  destruct (generated_day_streaks start dist dh Hh Hdh) as (Hmax & Hdrv & Hduty).
  fold es in Hmax, Hdrv, Hduty.
  assert (Hceil : Qceiling dh <= 11)
    by (rewrite <- (Qceiling_Z 11); now apply Qceiling_resp_le).
  split.
  { unfold types. rewrite driving_limit_flagged. lia. }
  split.
  { unfold types. rewrite violation_types, <- Qltb_lt.
    replace (11 * 60 <? HOSCalculator.driving_minutes es) with false by lia.
    replace (14 * 60 <? HOSCalculator.on_duty_minutes es) with false by lia.
    destruct (Py.Qltb 70 (HOSCalculator.cycle_used_hours es c)),
             (8 <? HOSCalculator.max_continuous es); cbn;
      intuition (try discriminate). }
  unfold types. rewrite break_required_flagged, Hmax. lia.
Qed.



End OneDayExtras.

Section RemarksMore.

Import ELDLogGenerator.

Lemma floor_unique (y : Q) (f : Z) :
  (inject_Z f <= y)%Q -> (y < inject_Z (f + 1))%Q -> Qfloor y = f.
Proof.
  intros Hlo Hhi. apply le_floor in Hlo.
  destruct (Z.le_gt_cases (f + 1) (Qfloor y)) as [H|H]; [|lia].
  apply le_floor in H. exfalso. apply (Qlt_not_le _ _ Hhi H).
Qed.

Lemma floor_add_Z (z : Z) (x : Q) : Qfloor (inject_Z z + x) = z + Qfloor x.
Proof.
  pose proof (Qfloor_le x) as Hlo. pose proof (Qlt_floor x) as Hhi.
  apply floor_unique.
  - rewrite inject_Z_plus. lra.
  - rewrite <- Z.add_assoc, (inject_Z_plus z). lra.
Qed.

Lemma Qltb_inject (k a b : Z) :
  Py.Qltb (inject_Z k) (inject_Z a + inject_Z b) = (k <? a + b).
Proof.
  apply eq_true_iff_eq.
  rewrite Qltb_lt, Z.ltb_lt, <- inject_Z_plus, <- Zlt_Qlt. reflexivity.
Qed.

Lemma flat_map_agree {A B} (f g : A -> list B) (l : list A) :
  (forall a, In a l -> f a = g a) -> flat_map f l = flat_map g l.
Proof.
  induction l as [|a l IH]; intros H; [reflexivity|].
  cbn [flat_map]. rewrite (H a) by now left.
  rewrite IH; [reflexivity|]. intros x Hx. apply H. now right.
Qed.

Lemma remarks_by_hour (start : datetime) (dist dh : Q) :
  remarks (generate_log_for_trip start dist dh)
  = flat_map (hour_remarks (dt_hour start) dh) (Py.range 24).
Proof.
  unfold generate_log_for_trip. cbn [remarks]. now rewrite hour_loop.
Qed.

Lemma hour_remarks_comp (h : Z) (dh dh' : Q) (k : Z) :
  0 <= h -> (0 <= dh)%Q -> (dh == dh')%Q ->
  hour_remarks h dh k = hour_remarks h dh' k.
Proof.
  intros Hh Hdh E. unfold hour_remarks.
  assert (H1 : (0 <= inject_Z (h + 1))%Q)
    by (change 0%Q with (inject_Z 0); rewrite <- Zle_Qle; lia).
  rewrite (Qltb_comp (inject_Z k) (inject_Z k)
             (inject_Z (h + 1) + dh) (inject_Z (h + 1) + dh'))
    by (try reflexivity; now rewrite E).
  rewrite (Qltb_comp (inject_Z k) (inject_Z k)
             (inject_Z (h + 1) + dh + 1) (inject_Z (h + 1) + dh' + 1))
    by (try reflexivity; now rewrite E).
  rewrite (int_comp (inject_Z (h + 1) + dh) (inject_Z (h + 1) + dh'))
    by (try lra; now rewrite E).
  rewrite (int_comp (inject_Z (h + 1) + dh + 1) (inject_Z (h + 1) + dh' + 1))
    by (try lra; now rewrite E).
  reflexivity.
Qed.

(** Beyond 24 driving hours nothing changes within the day. *)
Lemma hour_remarks_capped (h n k : Z) :
  0 <= h -> 0 <= n -> k < 24 ->
  hour_remarks h (inject_Z n) k = hour_remarks h (inject_Z (Z.min n 24)) k.
Proof.
  intros Hh Hn Hk. destruct (Z.le_gt_cases n 24) as [Hle|Hgt].
  - now rewrite Z.min_l.
  - rewrite Z.min_r by lia. unfold hour_remarks. rewrite !Qltb_inject.
    replace (k <? h + 1 + n) with true by lia.
    replace (k <? h + 1 + 24) with true by lia.
    reflexivity.
Qed.

Lemma whole_hours_remarks_capped (h n : Z) :
  0 <= h -> 0 <= n -> whole_hours_remarks h n = whole_hours_remarks h (Z.min n 24).
Proof.
  intros Hh Hn. destruct (Z.le_gt_cases n 24) as [Hle|Hgt].
  - now rewrite Z.min_l.
  - rewrite Z.min_r by lia. unfold whole_hours_remarks.
    replace (0 <? n) with true by lia.
    replace (h + 1 + n <=? 23) with false by lia.
    replace (h + 2 + n <=? 23) with false by lia.
    replace (h + 1 + 24 <=? 23) with false by lia.
    replace (h + 2 + 24 <=? 23) with false by lia.
    reflexivity.
Qed.

Lemma remarks_whole_hours (start : datetime) (dist dh : Q) (n : Z) :
  0 <= dt_hour start <= 23 -> 0 <= n -> (dh == inject_Z n)%Q ->
  remarks (generate_log_for_trip start dist dh)
  = whole_hours_remarks (dt_hour start) n.
Proof.
  intros Hh Hn E. rewrite remarks_by_hour.
  set (h := dt_hour start) in *.
  assert (Hdh : (0 <= dh)%Q)
    by (rewrite E; change 0%Q with (inject_Z 0); now rewrite <- Zle_Qle).
  rewrite (flat_map_agree _ (hour_remarks h (inject_Z (Z.min n 24)))).
  2:{ intros k Hk. apply range_in_inv in Hk.
      rewrite (hour_remarks_comp h dh (inject_Z n)) by (trivial; lia).
      apply hour_remarks_capped; lia. }
  rewrite whole_hours_remarks_capped by lia.
  assert (Hall : forallb (fun a => forallb (fun b =>
      if list_eq_dec string_dec
           (flat_map (hour_remarks a (inject_Z b)) (Py.range 24))
           (whole_hours_remarks a b)
      then true else false) (Py.range 25)) (Py.range 24) = true)
    by (vm_compute; reflexivity).
  rewrite forallb_forall in Hall.
  specialize (Hall h (in_range 24 h ltac:(lia))).
  rewrite forallb_forall in Hall.
  specialize (Hall (Z.min n 24) (in_range 25 (Z.min n 24) ltac:(lia))).
  now destruct (list_eq_dec string_dec _ _) in Hall.
Qed.

Lemma hour_remarks_part_hours (h : Z) (dh : Q) (k : Z) :
  0 <= h -> (0 <= dh)%Q -> (inject_Z (Qfloor dh) < dh)%Q ->
  hour_remarks h dh k
  = if k =? h then [Py.fmt_02d k ++ ":00 - Begin pickup activities"]
    else if k =? h + 1 then [Py.fmt_02d k ++ ":00 - Begin driving"]
    else [].
Proof.
  intros Hh Hdh Hpart. unfold hour_remarks.
  assert (H1 : (0 <= inject_Z (h + 1))%Q)
    by (change 0%Q with (inject_Z 0); rewrite <- Zle_Qle; lia).
  destruct (Z.ltb_spec k h) as [Hk|Hk].
  { replace (k =? h) with false by lia.
    now replace (k =? h + 1) with false by lia. }
  destruct (Z.ltb_spec k (h + 1)) as [Hk1|Hk1].
  { now replace (k =? h) with true by lia. }
  replace (k =? h) with false by lia.
  destruct (Py.Qltb (inject_Z k) (inject_Z (h + 1) + dh)) eqn:E1; [reflexivity|].
  apply Qltb_ge in E1.
  assert (Hgt : h + 1 + Qfloor dh < k).
  { rewrite Zlt_Qlt, !inject_Z_plus. rewrite inject_Z_plus in E1. lra. }
  replace (k =? h + 1) with false
    by (assert (0 <= Qfloor dh)
          by (apply le_floor; exact Hdh); lia).
  destruct (Py.Qltb (inject_Z k) (inject_Z (h + 1) + dh + 1)) eqn:E2.
  - rewrite int_floor by lra. rewrite floor_add_Z.
    now replace (k =? h + 1 + Qfloor dh) with false by lia.
  - apply Qltb_ge in E2. rewrite int_floor by lra.
    rewrite <- Qplus_assoc, floor_add_Z.
    replace (Qfloor (dh + 1)) with (Qfloor dh + 1).
    2:{ rewrite (Qfloor_comp (dh + 1) (inject_Z 1 + dh))
          by (change (inject_Z 1) with 1%Q; ring).
        rewrite floor_add_Z. lia. }
    assert (Hgt2 : h + 1 + (Qfloor dh + 1) < k).
    { rewrite Zlt_Qlt, !inject_Z_plus. rewrite inject_Z_plus in E2.
      change (inject_Z 1) with 1%Q in *. lra. }
    now replace (k =? h + 1 + (Qfloor dh + 1)) with false by lia.
Qed.

Lemma remarks_part_hours (start : datetime) (dist dh : Q) :
  0 <= dt_hour start <= 23 -> (0 <= dh)%Q -> (inject_Z (Qfloor dh) < dh)%Q ->
  remarks (generate_log_for_trip start dist dh)
  = part_hours_remarks (dt_hour start).
Proof.
  intros Hh Hdh Hpart. rewrite remarks_by_hour.
  set (h := dt_hour start) in *.
  rewrite (flat_map_agree _ (fun k =>
             if k =? h then [Py.fmt_02d k ++ ":00 - Begin pickup activities"]
             else if k =? h + 1 then [Py.fmt_02d k ++ ":00 - Begin driving"]
             else []))
    by (intros k _; apply hour_remarks_part_hours; trivial; lia).
  assert (Hall : forallb (fun a =>
      if list_eq_dec string_dec
           (flat_map (fun k =>
              if k =? a then [Py.fmt_02d k ++ ":00 - Begin pickup activities"]
              else if k =? a + 1 then [Py.fmt_02d k ++ ":00 - Begin driving"]
              else []) (Py.range 24))
           (part_hours_remarks a)
      then true else false) (Py.range 24) = true)
    by (vm_compute; reflexivity).
  rewrite forallb_forall in Hall.
  specialize (Hall h (in_range 24 h ltac:(lia))).
  now destruct (list_eq_dec string_dec _ _) in Hall.
Qed.

End RemarksMore.

Section RemarksExtras.

Import ELDLogGenerator.



End RemarksExtras.

Section MultiDayExtras.

Import ELDLogGenerator.





End MultiDayExtras.

(** ** RouteCalculator._generate_stops *)

Section StopMore.

Import RouteCalculator.

Lemma range_nonpos (n : Z) : n <= 0 -> Py.range n = [].
Proof.
  intros Hn. unfold Py.range. now replace (Z.to_nat n) with 0%nat by lia.
Qed.

Lemma range_max (n : Z) : Py.range n = Py.range (Z.max 0 n).
Proof. unfold Py.range. now replace (Z.to_nat (Z.max 0 n)) with (Z.to_nat n) by lia. Qed.

Lemma range_NoDup (n : Z) : NoDup (Py.range n).
Proof.
  unfold Py.range. generalize (seq_NoDup (Z.to_nat n) 0).
  induction 1 as [|k l Hk _ IH]; cbn [map]; constructor; [|exact IH].
  rewrite in_map_iff. intros (j & Hj & Hin).
  apply Nat2Z.inj in Hj. now subst j.
Qed.

Lemma NoDup_map_injective {A B} (f : A -> B) (l : list A) :
  (forall x y, f x = f y -> x = y) -> NoDup l -> NoDup (map f l).
Proof.
  intros Hf. induction 1 as [|x l Hx _ IH]; cbn [map]; constructor; [|exact IH].
  rewrite in_map_iff. intros (y & Hy & Hin). apply Hf in Hy. now subst y.
Qed.

Lemma sum_app (a b : list Z) : Py.sum (a ++ b) = Py.sum a + Py.sum b.
Proof. unfold Py.sum at 1. rewrite fold_left_app, sum_from. reflexivity. Qed.

Lemma sum_constant {A} (f : A -> Z) (c : Z) (l : list A) :
  (forall x, f x = c) -> Py.sum (map f l) = c * Z.of_nat (List.length l).
Proof.
  intros Hf. induction l as [|x l IH]; [cbn; lia|].
  change (map f (x :: l)) with ([f x] ++ map f l)%list.
  rewrite sum_app, IH, Hf. cbn [List.length]. unfold Py.sum. cbn. lia.
Qed.

(** The stops for any distance and duration: the two loops run
    max(0, floor(distance / 1000)) and max(0, floor(duration / 60 / 11))
    times and number their stops on from 2. *)
Lemma generate_stops_unfolded
    (current_location pickup_location dropoff_location : string)
    (current_coords pickup_coords dropoff_coords : Q * Q) (d t : Q) :
  let nf := Z.max 0 (Qfloor (d / 1000)) in
  let nr := Z.max 0 (Qfloor (t / 60 / 11)) in
  _generate_stops current_location pickup_location dropoff_location
    current_coords pickup_coords dropoff_coords d t
  = ([pickup_stop pickup_location pickup_coords 1]
     ++ map (fun i => fuel_stop pickup_coords i (2 + i)) (Py.range nf)
     ++ map (fun i => rest_stop pickup_coords i (2 + nf + i)) (Py.range nr)
     ++ [dropoff_stop dropoff_location dropoff_coords (2 + nf + nr)])%list.
Proof.
  intros nf nr. unfold _generate_stops, Py.floordiv. rewrite !int_inject_Z.
  rewrite (range_max (Qfloor (d / 1000))), (range_max (Qfloor (t / 60 / 11))).
  fold nf nr.
  rewrite (append_stops_range _ nf) by lia.
  rewrite (append_stops_range _ nr) by lia.
  cbn [fst snd]. rewrite <- !app_assoc. reflexivity.
Qed.

End StopMore.

Section StopExtras.

Import RouteCalculator.

Variables current_location pickup_location dropoff_location : string.
Variables current_coords pickup_coords dropoff_coords : Q * Q.

(** For any distance and duration, also negative ones: the stops are
    2 + nf + nr in number, with nf = max(0, floor(distance / 1000)) and
    nr = max(0, floor(duration / 60 / 11)); their ids are numbered 1, 2, ...
    in order behind the type of the stop, so no two stops share an id; they
    are all required; and together they take 120 + 30 nf + 600 nr minutes. *)
Theorem stops_numbered (d t : Q) :
  let nf := Z.max 0 (Qfloor (d / 1000)) in
  let nr := Z.max 0 (Qfloor (t / 60 / 11)) in
  let stops := _generate_stops current_location pickup_location dropoff_location
                 current_coords pickup_coords dropoff_coords d t in
  Z.of_nat (List.length stops) = 2 + nf + nr
  /\ map id stops
     = (["pickup-1"]
        ++ map (fun i => ("fuel-" ++ Py.str (2 + i))%string) (Py.range nf)
        ++ map (fun i => ("rest-" ++ Py.str (2 + nf + i))%string) (Py.range nr)
        ++ [("dropoff-" ++ Py.str (2 + nf + nr))%string])%list
  /\ NoDup (map id stops)
  /\ (forall s, In s stops -> required s = true)
  /\ Py.sum (map duration stops) = 120 + 30 * nf + 600 * nr.
Proof.
  intros nf nr stops.
  assert (Hstops := generate_stops_unfolded current_location pickup_location
                      dropoff_location current_coords pickup_coords
                      dropoff_coords d t).
  cbv zeta in Hstops. fold nf nr stops in Hstops.
  assert (Hnf : Z.of_nat (List.length (Py.range nf)) = nf)
    by (rewrite range_length; lia).
  assert (Hnr : Z.of_nat (List.length (Py.range nr)) = nr)
    by (rewrite range_length; lia).
  assert (Hids : map id stops
     = (["pickup-1"]
        ++ map (fun i => ("fuel-" ++ Py.str (2 + i))%string) (Py.range nf)
        ++ map (fun i => ("rest-" ++ Py.str (2 + nf + i))%string) (Py.range nr)
        ++ [("dropoff-" ++ Py.str (2 + nf + nr))%string])%list).
  { rewrite Hstops, !map_app, !map_map. reflexivity. }
  split.
  { rewrite Hstops, !length_app, !length_map. cbn [List.length]. lia. }
  split; [exact Hids|].
  split.
  { rewrite Hids. cbn [app]. constructor.
    - rewrite !in_app_iff, !in_map_iff.
      intros [(i & Hi & _) | [(i & Hi & _) | [Hi | []]]]; discriminate.
    - apply NoDup_app; [|apply NoDup_app|].
      + apply NoDup_map_injective; [|apply range_NoDup].
        intros x y H.
        apply (string_app_inj "fuel-" "fuel-") in H as [_ H]; [|reflexivity].
        apply str_inj in H. lia.
      + apply NoDup_map_injective; [|apply range_NoDup].
        intros x y H.
        apply (string_app_inj "rest-" "rest-") in H as [_ H]; [|reflexivity].
        apply str_inj in H. lia.
      + repeat constructor. intros [].
      + intros a. rewrite in_map_iff. intros (i & <- & _) [H | []].
        discriminate.
      + intros a. rewrite in_map_iff, in_app_iff, in_map_iff.
        intros (i & <- & _) [(j & H & _) | [H | []]]; discriminate. }
  split.
  { intros s. rewrite Hstops, !in_app_iff, !in_map_iff.
    intros [[<- | []] | [(i & <- & _) | [(i & <- & _) | [<- | []]]]];
      reflexivity. }
  rewrite Hstops, !map_app, !sum_app, !map_map.
  rewrite (sum_constant (fun i => duration (fuel_stop pickup_coords i (2 + i))) 30)
    by reflexivity.
  rewrite (sum_constant
             (fun i => duration (rest_stop pickup_coords i (2 + nf + i))) 600)
    by reflexivity.
  rewrite Hnf, Hnr. unfold Py.sum.
  cbn [map fold_left duration pickup_stop dropoff_stop]. lia.
Qed.

(** The two loops do nothing below their thresholds: the result is just the
    pickup and the dropoff, numbered 1 and 2, exactly when the distance is
    under 1000 miles and the duration under 660 minutes -- a negative
    distance or duration counts as a short one, it raises nothing. *)
Theorem only_pickup_and_dropoff (d t : Q) :
  let stops := _generate_stops current_location pickup_location dropoff_location
                 current_coords pickup_coords dropoff_coords d t in
  (List.length stops = 2%nat <-> (d < 1000)%Q /\ (t < 660)%Q)
  /\ ((d < 1000)%Q -> (t < 660)%Q ->
      stops = [pickup_stop pickup_location pickup_coords 1;
               dropoff_stop dropoff_location dropoff_coords 2]).
Proof.
  intros stops.
  assert (Hstops := generate_stops_unfolded current_location pickup_location
                      dropoff_location current_coords pickup_coords
                      dropoff_coords d t).
  cbv zeta in Hstops. fold stops in Hstops.
  assert (Hlen : Z.of_nat (List.length stops)
                 = 2 + Z.max 0 (Qfloor (d / 1000))
                   + Z.max 0 (Qfloor (t / 60 / 11)))
    by (rewrite Hstops, !length_app, !length_map, !range_length;
        cbn [List.length]; lia).
  assert (Hf : Qfloor (d / 1000) <= 0 <-> (d < 1000)%Q).
  { split; intros H.
    - pose proof (Qlt_floor (d / 1000)) as Hlt.
      assert (Hz : (inject_Z (Qfloor (d / 1000) + 1) <= 1)%Q)
        by (change 1%Q with (inject_Z 1); rewrite <- Zle_Qle; lia).
      assert (Hd : (d / 1000 < 1)%Q) by lra.
      apply (Qmult_lt_r _ _ 1000) in Hd; [|reflexivity].
      assert (E : (d / 1000 * 1000 == d)%Q) by (field; discriminate).
      rewrite E in Hd. exact Hd.
    - apply Z.lt_succ_r, Z.lt_nge. intros Hge. apply le_floor in Hge.
      assert (Hd : (d / 1000 < 1)%Q)
        by (apply Qlt_shift_div_r; [reflexivity | lra]).
      change (inject_Z (Z.succ 0)) with 1%Q in Hge. lra. }
  assert (Hr : Qfloor (t / 60 / 11) <= 0 <-> (t < 660)%Q).
  { assert (E : (t / 60 / 11 == t / 660)%Q) by (field; split; discriminate).
    rewrite (Qfloor_comp _ _ E). split; intros H.
    - pose proof (Qlt_floor (t / 660)) as Hlt.
      assert (Hz : (inject_Z (Qfloor (t / 660) + 1) <= 1)%Q)
        by (change 1%Q with (inject_Z 1); rewrite <- Zle_Qle; lia).
      assert (Hd : (t / 660 < 1)%Q) by lra.
      apply (Qmult_lt_r _ _ 660) in Hd; [|reflexivity].
      assert (E' : (t / 660 * 660 == t)%Q) by (field; discriminate).
      rewrite E' in Hd. exact Hd.
    - apply Z.lt_succ_r, Z.lt_nge. intros Hge. apply le_floor in Hge.
      assert (Hd : (t / 660 < 1)%Q)
        by (apply Qlt_shift_div_r; [reflexivity | lra]).
      change (inject_Z (Z.succ 0)) with 1%Q in Hge. lra. }
  split.
  - rewrite <- Hf, <- Hr. lia.
  - intros Hd Ht. apply Hf in Hd. apply Hr in Ht.
    rewrite Hstops. rewrite !Z.max_l by lia. reflexivity.
Qed.

End StopExtras.

(** The theorem applies to a negative distance. *)
Lemma only_pickup_and_dropoff_witness :
  (-5 < 1000)%Q /\ (30 < 660)%Q
  /\ map RouteCalculator.id
       (RouteCalculator._generate_stops "Dallas" "Denver" "Boston"
          (32 # 1, -97 # 1)%Q (39 # 1, -105 # 1)%Q (42 # 1, -71 # 1)%Q (-5) 30)
     = ["pickup-1"; "dropoff-2"].
Proof.
  assert (Hd : (-5 < 1000)%Q) by reflexivity.
  assert (Ht : (30 < 660)%Q) by reflexivity.
  split; [exact Hd|]. split; [exact Ht|].
  destruct (only_pickup_and_dropoff "Dallas" "Denver" "Boston"
              (32 # 1, -97 # 1)%Q (39 # 1, -105 # 1)%Q (42 # 1, -71 # 1)%Q
              (-5) 30) as [_ Hshort].
  rewrite (Hshort Hd Ht). reflexivity.
Defined.

(** ** Route calculation and the errors shown for it *)

Section RouteMore.

Import RouteCalculator.

Lemma startswith_app (sub rest : string) : Py.startswith (sub ++ rest) sub = true.
Proof.
  induction sub as [|c sub IH]; [reflexivity|].
  cbn [append Py.startswith]. now rewrite Ascii.eqb_refl, IH.
Qed.

Lemma contains_here (sub rest : string) : Py.contains sub (sub ++ rest) = true.
Proof.
  destruct (sub ++ rest) eqn:E; cbn [Py.contains]; rewrite <- E;
    now rewrite startswith_app.
Qed.

Lemma contains_skip (sub a b : string) :
  Py.contains sub b = true -> Py.contains sub (a ++ b) = true.
Proof.
  intros H. induction a as [|c a IH]; [exact H|].
  cbn [append Py.contains]. rewrite IH. apply orb_true_r.
Qed.

Lemma contains_keep (sub a b : string) :
  Py.contains sub a = true -> Py.contains sub (a ++ b) = true.
Proof.
  revert sub. 
  assert (Hstart : forall s sub, Py.startswith s sub = true ->
                                 Py.startswith (s ++ b) sub = true).
  { intros s sub. revert s. induction sub as [|c sub IH]; intros s H;
      [reflexivity|].
    destruct s as [|d s]; [discriminate|].
    cbn [append Py.startswith] in *. apply andb_prop in H as [Hc Hs].
    now rewrite Hc, IH. }
  intros sub. induction a as [|c a IH]; intros H.
  - cbn [Py.contains] in H. rewrite orb_false_r in H.
    destruct sub; [|discriminate]. cbn [append].
    destruct b; reflexivity.
  - cbn [append Py.contains] in *. apply orb_prop in H as [H|H].
    + change (String c (a ++ b)) with (String c a ++ b).
      now rewrite Hstart.
    + rewrite IH by exact H. apply orb_true_r.
Qed.

(** The message raised when a lookup finds nothing for [location]. *)
Lemma not_found_classified (location : string) :
  Views.error (Views.error_response
    ("Route calculation failed: "
     ++ ("Geocoding failed for " ++ location ++ ": "
         ++ ("Could not find location: " ++ location))))
  = "Location not found".
Proof.
  unfold Views.error_response.
  replace (Py.contains "Could not find location" _) with true; [reflexivity|].
  symmetry. apply contains_skip, contains_skip, contains_skip, contains_skip.
  apply (contains_here "Could not find location" (": " ++ location)).
Qed.

Lemma geocoding_failed_classified (location message : string) :
  let m := "Route calculation failed: "
           ++ ("Geocoding failed for " ++ location ++ ": " ++ message) in
  Views.error (Views.error_response m)
  = if Py.contains "Could not find location" m
    then "Location not found"
    else "Address lookup service temporarily unavailable".
Proof.
  intros m. unfold Views.error_response.
  destruct (Py.contains "Could not find location" m); [reflexivity|].
  replace (Py.contains "Geocoding failed" m) with true; [reflexivity|].
  symmetry. apply contains_skip.
  apply (contains_here "Geocoding failed" (" for " ++ location ++ ": " ++ message)).
Qed.

(** [round] stays between the floor and the ceiling. *)
Lemma round_between (x : Q) : Qfloor x <= Py.round x <= Qceiling x.
Proof.
  assert (Hfc : Qfloor x <= Qceiling x)
    by (rewrite Zle_Qle; apply Qle_floor_ceiling).
  assert (Hup : (inject_Z (Qfloor x) < x)%Q -> Qfloor x + 1 <= Qceiling x)
    by (intros H; apply lt_ceiling in H; lia).
  unfold Py.round.
  destruct (x - inject_Z (Qfloor x) ?= 1 # 2)%Q eqn:E.
  - apply Qeq_alt in E. destruct (Z.even (Qfloor x)); [lia|].
    split; [lia|]. apply Hup. lra.
  - lia.
  - apply Qgt_alt in E. split; [lia|]. apply Hup. lra.
Qed.

Lemma ceiling_upper (x : Q) (m : Z) : (x <= inject_Z m)%Q -> Qceiling x <= m.
Proof. intros H. rewrite <- (Qceiling_Z m). now apply Qceiling_resp_le. Qed.

End RouteMore.

Section PlanMore.

Import ELDLogGenerator.

Lemma duration_hours (est : Z) :
  (Py.Qltb 11 (inject_Z est / 60) = true <-> 660 < est)
  /\ (inject_Z est / 60 / 11 == inject_Z est / 660)%Q.
Proof.
  split; [|field].
  rewrite Qltb_lt. change 660 with (11 * 60). rewrite Zlt_Qlt, inject_Z_mult.
  change (inject_Z 11) with 11%Q. change (inject_Z 60) with 60%Q.
  split; intros H.
  - apply (Qmult_lt_r _ _ 60) in H; [|reflexivity].
    assert (E : (inject_Z est / 60 * 60 == inject_Z est)%Q)
      by (field; discriminate).
    now rewrite E in H.
  - apply Qlt_shift_div_l; [reflexivity | exact H].
Qed.

(** The logs that the trip view builds from a duration in minutes. *)
Lemma planned_logs_cases (fuel : nat) (start : datetime) (dist : Q) (est : Z)
    (pickup dropoff : string) :
  let hours := (inject_Z est / 60)%Q in
  Views.eld_logs_data fuel start dist est pickup dropoff
  = if 660 <? est then
      if (days_needed hours <=? fuel)%nat
      then Returned (map (fun j => day_log dist hours (day_state start dist hours j))
                         (seq 0 (days_needed hours)))
      else OutOfFuel
    else Returned [ {| date := start; daily_miles := dist;
                       log_data := generate_log_for_trip start dist hours |} ].
Proof.
  intros hours. unfold Views.eld_logs_data. fold hours.
  destruct (duration_hours est) as [Hlt _]. fold hours in Hlt.
  destruct (Z.ltb_spec 660 est) as [H|H].
  - replace (Py.Qltb 11 hours) with true by (symmetry; now apply Hlt).
    apply multi_day_logs_result.
    apply Qlt_trans with 11%Q; [reflexivity | now apply Qltb_lt, Hlt].
  - replace (Py.Qltb 11 hours) with false; [reflexivity|].
    symmetry. apply not_true_iff_false. rewrite Hlt. lia.
Qed.

End PlanMore.

Section RouteExtras.

Import RouteCalculator.

Variables current_reply pickup_reply dropoff_reply : geocoder_reply.
Variable router : Q * Q -> Q * Q -> Q * Q -> router_reply.
Variables current_location pickup_location dropoff_location : string.

(** When the first lookup that does not succeed (current location, then
    pickup, then dropoff) comes back with no result, [calculate_route] raises
    "Route calculation failed: Geocoding failed for L: Could not find
    location: L" for that location L -- the empty-result exception is caught
    and wrapped by [geocode_location] itself -- and the trip view answers
    "Location not found", whatever the text of the location. *)
Theorem location_not_found_reported :
  let result := calculate_route current_reply pickup_reply dropoff_reply router
                  current_location pickup_location dropoff_location in
  let not_found location :=
    ("Route calculation failed: Geocoding failed for " ++ location
     ++ ": Could not find location: " ++ location)%string in
  (current_reply = GeocoderResults [] ->
   result = Raised (not_found current_location))
  /\ (forall c cs, current_reply = GeocoderResults (c :: cs) ->
      pickup_reply = GeocoderResults [] ->
      result = Raised (not_found pickup_location))
  /\ (forall c cs p ps, current_reply = GeocoderResults (c :: cs) ->
      pickup_reply = GeocoderResults (p :: ps) ->
      dropoff_reply = GeocoderResults [] ->
      result = Raised (not_found dropoff_location))
  /\ (forall location,
        Views.error (Views.error_response (not_found location))
        = "Location not found").
Proof.
  intros result not_found. subst result. unfold calculate_route.
  split; [now intros ->|].
  split; [now intros c cs -> ->|].
  split; [now intros c cs p ps -> -> ->|].
  intros location. apply not_found_classified.
Qed.

(** When the first lookup that does not succeed raises something else (a
    timeout, an HTTP error, a malformed answer), [calculate_route] raises
    "Route calculation failed: Geocoding failed for L: " followed by its
    message, and the trip view answers "Address lookup service temporarily
    unavailable" -- unless the text "Could not find location" occurs in that
    error, which it does whenever the location typed in contains it: the
    view then answers "Location not found". *)
Theorem geocoding_failure_reported (message : string) :
  let result := calculate_route current_reply pickup_reply dropoff_reply router
                  current_location pickup_location dropoff_location in
  let failed location :=
    ("Route calculation failed: Geocoding failed for " ++ location
     ++ ": " ++ message)%string in
  (current_reply = GeocoderRaised message ->
   result = Raised (failed current_location))
  /\ (forall c cs, current_reply = GeocoderResults (c :: cs) ->
      pickup_reply = GeocoderRaised message ->
      result = Raised (failed pickup_location))
  /\ (forall c cs p ps, current_reply = GeocoderResults (c :: cs) ->
      pickup_reply = GeocoderResults (p :: ps) ->
      dropoff_reply = GeocoderRaised message ->
      result = Raised (failed dropoff_location))
  /\ (forall location,
        Views.error (Views.error_response (failed location))
        = if Py.contains "Could not find location" (failed location)
          then "Location not found"
          else "Address lookup service temporarily unavailable")
  /\ (forall location,
        Py.contains "Could not find location" location = true ->
        Views.error (Views.error_response (failed location))
        = "Location not found").
Proof.
  intros result failed. subst result. unfold calculate_route.
  split; [now intros ->|].
  split; [now intros c cs -> ->|].
  split; [now intros c cs p ps -> -> ->|].
  assert (Hclass : forall location,
            Views.error (Views.error_response (failed location))
            = if Py.contains "Could not find location" (failed location)
              then "Location not found"
              else "Address lookup service temporarily unavailable")
    by (intros location; apply (geocoding_failed_classified location message)).
  split; [exact Hclass|].
  intros location Hin. rewrite Hclass.
  replace (Py.contains "Could not find location" (failed location)) with true;
    [reflexivity|].
  symmetry.
  apply (contains_skip _ "Route calculation failed: Geocoding failed for ").
  now apply contains_keep.
Qed.

(** When the three lookups succeed and the routing service answers with a
    code other than 'Ok' (or none) or with no route, [calculate_route] raises
    "Route calculation failed: No route found between locations" and the trip
    view answers "No route available". *)
Theorem no_route_reported (c p d : Q * Q) (cs ps ds : list (Q * Q))
    (code : option string) (routes : list OSRM.Route) :
  current_reply = GeocoderResults (c :: cs) ->
  pickup_reply = GeocoderResults (p :: ps) ->
  dropoff_reply = GeocoderResults (d :: ds) ->
  router c p d = RouterData code routes ->
  code <> Some "Ok" \/ routes = [] ->
  let result := calculate_route current_reply pickup_reply dropoff_reply router
                  current_location pickup_location dropoff_location in
  result = Raised "Route calculation failed: No route found between locations"
  /\ Views.error (Views.error_response
                    "Route calculation failed: No route found between locations")
     = "No route available".
Proof.
  intros -> -> -> Hrouter Hbad result. split; [|reflexivity].
  subst result. unfold calculate_route. cbn [geocode_location bind].
  rewrite Hrouter.
  replace (negb (code_is "Ok" code) || is_empty routes) with true;
    [reflexivity|].
  symmetry. destruct Hbad as [Hcode | ->]; [|apply orb_true_r].
  destruct code as [code|]; [|reflexivity]. cbn [code_is].
  destruct (String.eqb_spec code "Ok") as [->|Hne]; [contradiction|reflexivity].
Qed.

End RouteExtras.

(** The theorem applies to three lookups that succeed and a routing service
    that knows no route. *)
Lemma no_route_reported_witness :
  let found := RouteCalculator.GeocoderResults [(32 # 1, -97 # 1)%Q] in
  RouteCalculator.calculate_route found found found
    (fun _ _ _ => RouteCalculator.RouterData (Some "NoRoute") [])
    "Dallas" "Denver" "Boston"
  = Raised "Route calculation failed: No route found between locations".
Proof.
  cbv zeta.
  refine (proj1 (no_route_reported
                   (RouteCalculator.GeocoderResults [(32 # 1, -97 # 1)%Q])
                   (RouteCalculator.GeocoderResults [(32 # 1, -97 # 1)%Q])
                   (RouteCalculator.GeocoderResults [(32 # 1, -97 # 1)%Q])
                   (fun _ _ _ => RouteCalculator.RouterData (Some "NoRoute") [])
                   "Dallas" "Denver" "Boston"
                   (32 # 1, -97 # 1)%Q (32 # 1, -97 # 1)%Q (32 # 1, -97 # 1)%Q
                   [] [] [] (Some "NoRoute") []
                   eq_refl eq_refl eq_refl eq_refl _)).
  left. discriminate.
Defined.

(** A lookup of "Nowhere" that finds nothing is answered "Location not
    found". *)
Lemma location_not_found_reported_witness :
  RouteCalculator.calculate_route (RouteCalculator.GeocoderResults [])
    (RouteCalculator.GeocoderResults []) (RouteCalculator.GeocoderResults [])
    (fun _ _ _ => RouteCalculator.RouterRaised "unused")
    "Nowhere" "Denver" "Boston"
  = Raised "Route calculation failed: Geocoding failed for Nowhere: Could not find location: Nowhere".
Proof.
  exact (proj1 (location_not_found_reported
                  (RouteCalculator.GeocoderResults [])
                  (RouteCalculator.GeocoderResults [])
                  (RouteCalculator.GeocoderResults [])
                  (fun _ _ _ => RouteCalculator.RouterRaised "unused")
                  "Nowhere" "Denver" "Boston") eq_refl).
Defined.

(** A timeout while looking up a street called "Could not find location
    Road" is answered "Location not found". *)
Lemma geocoding_failure_reported_witness :
  Views.error
    (Views.error_response
       "Route calculation failed: Geocoding failed for Could not find location Road: timed out")
  = "Location not found".
Proof.
  exact (proj2 (proj2 (proj2 (proj2 (geocoding_failure_reported
           (RouteCalculator.GeocoderRaised "timed out")
           (RouteCalculator.GeocoderResults [])
           (RouteCalculator.GeocoderResults [])
           (fun _ _ _ => RouteCalculator.RouterRaised "unused")
           "Could not find location Road" "Denver" "Boston" "timed out"))))
         "Could not find location Road" eq_refl).
Defined.

(** ** The logs and violations of a planned trip *)

Section PlanFacts.

Import ELDLogGenerator.



Lemma planned_log_count (start : datetime) (dist : Q) (est : Z) :
  0 <= est ->
  let hours := (inject_Z est / 60)%Q in
  (660 < est -> Z.of_nat (days_needed hours) = Z.max 1 (Qceiling (inject_Z est / 660)))
  /\ (est <= 660 -> 1 = Z.max 1 (Qceiling (inject_Z est / 660)))
  /\ (0 <= hours)%Q
  /\ (est <= 660 -> (hours <= 11)%Q).
Proof.
  intros Hest hours.
  destruct (duration_hours est) as [Hlt E]. fold hours in Hlt, E.
  assert (H0 : (0 <= hours)%Q).
  { apply Qle_shift_div_l; [reflexivity|].
    rewrite Qmult_0_l. change 0%Q with (inject_Z 0). now rewrite <- Zle_Qle. }
  split; [|split; [|split]]; trivial.
  - intros H. unfold days_needed. rewrite (Qceiling_comp _ _ E).
    assert (1 <= Qceiling (inject_Z est / 660)); [|lia].
    assert (0 < Qceiling (inject_Z est / 660)); [|lia].
    apply lt_ceiling. change (inject_Z 0) with 0%Q.
    apply Qlt_shift_div_l; [reflexivity|].
    rewrite Qmult_0_l. change 0%Q with (inject_Z 0).
    rewrite <- Zlt_Qlt. lia.
  - intros H.
    assert (Qceiling (inject_Z est / 660) <= 1); [|lia].
    apply ceiling_upper. apply Qle_shift_div_r; [reflexivity|].
    change (inject_Z 1 * 660)%Q with (inject_Z 660).
    now rewrite <- Zle_Qle.
  - intros H. apply Qnot_lt_le. intros Hgt. apply Qltb_lt, Hlt in Hgt. lia.
Qed.

End PlanFacts.

Section PlanExtras.

Import ELDLogGenerator.



(** The violations that the trip view reports, which it computes from the
    first day's entries only, for a route of [est] >= 0 minutes and a start
    hour in [0,23]: never a driving_limit; a duty_limit only through the
    70-hour cycle; and a break_required exactly when the route takes more
    than 480 minutes and the trip starts at 14:00 at the latest. *)
Theorem planned_violations (fuel : nat) (start : datetime) (dist : Q) (est : Z)
    (pickup dropoff : string) (cycle : Q) :
  0 <= est -> 0 <= dt_hour start <= 23 ->
  (days_needed (inject_Z est / 60) <= fuel)%nat ->
  exists logs,
    Views.eld_logs_data fuel start dist est pickup dropoff = Returned logs
    /\ let es := Views.current_time_entries logs in
       let types := map HOSCalculator.vtype
                        (HOSCalculator.calculate_violations es cycle) in
       ~ In "driving_limit" types
       /\ (In "duty_limit" types
           <-> (70 < HOSCalculator.cycle_used_hours es cycle)%Q)
       /\ (In "break_required" types <-> 480 < est /\ dt_hour start <= 14).
Proof.
  intros Hest Hh Hfuel.
  destruct (planned_log_count start dist est Hest) as (Hmany & Hone & H0 & H11).
  destruct (duration_hours est) as [Hlt _].
  rewrite planned_logs_cases.
  set (hours := (inject_Z est / 60)%Q) in *.
  assert (Hnine : forall h, (h == hours)%Q \/ (h == 11 /\ 11 < hours)%Q ->
                            (9 <= Qceiling h <-> 480 < est)).
  { intros h Hcases.
    assert (Hiff : 9 <= Qceiling h <-> (inject_Z 8 < h)%Q)
      by (rewrite lt_ceiling; lia).
    rewrite Hiff. change (inject_Z 8) with 8%Q.
    assert (Hest8 : (8 < hours)%Q <-> 480 < est).
    { unfold hours. change 480 with (8 * 60).
      rewrite Zlt_Qlt, inject_Z_mult.
      change (inject_Z 8) with 8%Q. change (inject_Z 60) with 60%Q.
      split; intros H.
      - apply (Qmult_lt_r _ _ 60) in H; [|reflexivity].
        assert (E : (inject_Z est / 60 * 60 == inject_Z est)%Q)
          by (field; discriminate).
        now rewrite E in H.
      - apply Qlt_shift_div_l; [reflexivity | exact H]. }
    rewrite <- Hest8. destruct Hcases as [E | [E Hgt]]; rewrite E.
    - reflexivity.
    - split; intros _; [lra | reflexivity]. }
  destruct (Z.ltb_spec 660 est) as [H|H].
  - replace (days_needed hours <=? fuel)%nat with true
      by (symmetry; now apply Nat.leb_le).
    eexists. split; [reflexivity|].
    specialize (Hmany H).
    destruct (days_needed hours) as [|n] eqn:En; [lia|].
    cbn [seq map Views.current_time_entries log_data day_log].
    unfold day_state. cbn [run_days].
    unfold daily_driving_hours, initial_state. cbn [remaining_hours current_date].
    assert (Hgt : (11 < hours)%Q) by (apply Qltb_lt, Hlt, H).
    assert (Hmin : Py.min 11 hours = 11%Q).
    { unfold Py.min. replace (Py.Qltb hours 11) with false; [reflexivity|].
      symmetry. apply Qltb_ge. lra. }
    rewrite Hmin.
    destruct (generated_day_violation_types start
                (daily_distance dist hours
                   {| logs := []; current_date := start;
                      remaining_hours := hours; remaining_distance := dist;
                      day_count := 1 |}) 11 cycle Hh)
      as (Hdrv & Hduty & Hbreak);
      [discriminate | apply Qle_refl |].
    unfold daily_distance, daily_driving_hours in *.
    cbn [remaining_hours] in *. rewrite Hmin in *.
    split; [exact Hdrv|]. split; [exact Hduty|].
    rewrite Hbreak, (Hnine 11%Q); [reflexivity|].
    right. split; [reflexivity | exact Hgt].
  - eexists. split; [reflexivity|].
    cbn [Views.current_time_entries log_data].
    destruct (generated_day_violation_types start dist hours cycle Hh H0
                (H11 H))
      as (Hdrv & Hduty & Hbreak).
    split; [exact Hdrv|]. split; [exact Hduty|].
    rewrite Hbreak, (Hnine hours); [reflexivity|]. now left.
Qed.

(** The theorem applies to a route of 600 minutes planned at 08:00: the break
    violation is reported. *)
Lemma planned_violations_witness :
  exists logs,
    Views.eld_logs_data 1 (mkDatetime 0 8 0) 500 600 "A" "B" = Returned logs
    /\ In "break_required"
         (map HOSCalculator.vtype
              (HOSCalculator.calculate_violations
                 (Views.current_time_entries logs) 0)).
Proof.
  assert (H0 : 0 <= 600) by lia.
  assert (Hh : 0 <= dt_hour (mkDatetime 0 8 0) <= 23) by (simpl; lia).
  assert (Hf : (days_needed (inject_Z 600 / 60) <= 1)%nat)
    by (vm_compute; lia).
  destruct (planned_violations 1 (mkDatetime 0 8 0) 500 600 "A" "B" 0 H0 Hh Hf)
    as (logs & Hret & _ & _ & Hbreak).
  exists logs. split; [exact Hret|].
  apply Hbreak. simpl. lia.
Defined.

End PlanExtras.

Section RoutePlanExtras.

Import RouteCalculator.



End RoutePlanExtras.


(** ** Stored remarks and the PDF export *)

Section ExportMore.

Import ELDLogGenerator.

Lemma split_no_separator (c : ascii) (s : string) :
  has_char c s = false -> Py.split c s = [s].
Proof.
  induction s as [|a s IH]; [reflexivity|].
  cbn [has_char Py.split]. intros H. apply orb_false_elim in H as [Ha Hs].
  now rewrite Ha, IH.
Qed.

Lemma split_at_separator (c : ascii) (x rest : string) :
  has_char c x = false ->
  Py.split c (x ++ String c rest) = x :: Py.split c rest.
Proof.
  induction x as [|a x IH]; intros H.
  - cbn [append Py.split]. now rewrite Ascii.eqb_refl.
  - cbn [has_char] in H. apply orb_false_elim in H as [Ha Hx].
    cbn [append Py.split]. now rewrite Ha, IH.
Qed.

Lemma split_join (c : ascii) (l : list string) :
  l <> [] -> (forall s, In s l -> has_char c s = false) ->
  Py.split c (Py.join (String c "") l) = l.
Proof.
  induction l as [|x l IH]; [contradiction|]. intros _ Hl.
  destruct l as [|y l].
  - cbn [Py.join]. apply split_no_separator, Hl. now left.
  - change (Py.join (String c "") (x :: y :: l))
      with (x ++ String c (Py.join (String c "") (y :: l))).
    rewrite split_at_separator by (apply Hl; now left).
    rewrite IH; [reflexivity | discriminate |].
    intros s Hs. apply Hl. now right.
Qed.

Lemma load_store (l : list string) :
  (forall s, In s l -> has_char Py.newline s = false) -> l <> [""] ->
  Views.load_remarks (Views.store_remarks l) = l.
Proof.
  intros Hl Hne. destruct l as [|x l]; [reflexivity|].
  unfold Views.load_remarks, Views.store_remarks.
  destruct (Py.join (String Py.newline "") (x :: l)) eqn:E.
  - exfalso. destruct l as [|y l].
    + cbn [Py.join] in E. now subst x.
    + cbn [Py.join] in E. destruct x; discriminate.
  - rewrite <- E. apply split_join; [discriminate | exact Hl].
Qed.

Lemma hours_minutes_padded (m : Z) :
  hours_minutes m = HOSCalculator._format_time m <-> 10 <= m mod 60.
Proof.
  unfold hours_minutes, HOSCalculator._format_time.
  assert (Hmm : 0 <= m mod 60 < 60) by (apply Z.mod_pos_bound; lia).
  assert (Hall : forallb (fun k =>
      Bool.eqb (String.eqb (Py.str k ++ "m") (Py.fmt_02d k ++ "m")) (10 <=? k))
      (Py.range 60) = true) by (vm_compute; reflexivity).
  rewrite forallb_forall in Hall.
  specialize (Hall (m mod 60) (in_range 60 _ Hmm)).
  apply eqb_prop in Hall.
  split; intros H.
  - apply string_app_inj in H as [_ H]; [|reflexivity].
    apply (string_app_inj "h " "h ") in H as [_ H]; [|reflexivity].
    apply String.eqb_eq in H. rewrite Hall in H. lia.
  - assert (Heq : String.eqb (Py.str (m mod 60) ++ "m")
                             (Py.fmt_02d (m mod 60) ++ "m") = true)
      by (rewrite Hall; lia).
    apply String.eqb_eq in Heq. now rewrite Heq.
Qed.

End ExportMore.

Section ExportExtras.

Import ELDLogGenerator.

(** The remarks of a log survive being stored as one text, joined with
    newlines, and read back for the PDF by splitting it, provided no remark
    contains a newline -- with one exception: a log whose only remark is the
    empty text comes back with no remark at all.  The remarks of a generated
    day (start hour in [0,23], driving_hours >= 0) always come back
    unchanged. *)
Theorem remarks_round_trip :
  (forall l, (forall s, In s l -> has_char Py.newline s = false) ->
             l <> [""] ->
             Views.load_remarks (Views.store_remarks l) = l)
  /\ Views.load_remarks (Views.store_remarks [""]) = []
  /\ (forall start dist dh,
        0 <= dt_hour start <= 23 -> (0 <= dh)%Q ->
        let rs := remarks (generate_log_for_trip start dist dh) in
        Views.load_remarks (Views.store_remarks rs) = rs).
Proof.
  split; [exact load_store|]. split; [reflexivity|].
  intros start dist dh Hh Hdh rs.
  assert (Hpart : forallb (fun a =>
      forallb (fun r => negb (has_char Py.newline r)) (part_hours_remarks a))
      (Py.range 24) = true) by (vm_compute; reflexivity).
  assert (Hwhole : forallb (fun a => forallb (fun b =>
      forallb (fun r => negb (has_char Py.newline r)) (whole_hours_remarks a b))
      (Py.range 25)) (Py.range 24) = true) by (vm_compute; reflexivity).
  rewrite forallb_forall in Hpart, Hwhole.
  specialize (Hpart _ (in_range 24 (dt_hour start) ltac:(lia))).
  specialize (Hwhole _ (in_range 24 (dt_hour start) ltac:(lia))).
  rewrite forallb_forall in Hpart, Hwhole.
  subst rs. destruct (Qle_lt_or_eq _ _ (Qfloor_le dh)) as [Hlt|Heq].
  - rewrite (remarks_part_hours start dist dh Hh Hdh Hlt).
    apply load_store.
    + intros s Hs. apply Hpart in Hs. now apply negb_true_iff in Hs.
    + unfold part_hours_remarks. destruct (dt_hour start + 1 <=? 23);
        cbn; intros E; injection E as E; try discriminate.
      assert (String.length (Py.fmt_02d (dt_hour start)
                             ++ ":00 - Begin pickup activities") = 0%nat)
        by now rewrite E.
      rewrite string_length_app in *. cbn in *. lia.
  - assert (Hn : 0 <= Qfloor dh) by (apply le_floor; exact Hdh).
    rewrite (remarks_whole_hours start dist dh (Qfloor dh) Hh Hn)
      by now symmetry.
    rewrite whole_hours_remarks_capped by lia.
    specialize (Hwhole (Z.min (Qfloor dh) 24)
                  (in_range 25 (Z.min (Qfloor dh) 24) ltac:(lia))).
    rewrite forallb_forall in Hwhole.
    apply load_store.
    + intros s Hs. apply Hwhole in Hs. now apply negb_true_iff in Hs.
    + unfold whole_hours_remarks. cbn [app]. intros E. injection E as E _.
      assert (String.length (Py.fmt_02d (dt_hour start)
                             ++ ":00 - Begin pickup activities") = 0%nat)
        by now rewrite E.
      rewrite string_length_app in *. cbn in *. lia.
Qed.

(** The theorem applies to the two remarks of a day of three and a half
    hours. *)
Lemma remarks_round_trip_witness :
  Views.store_remarks
    (remarks (generate_log_for_trip (mkDatetime 0 8 0) 200 (7 # 2)))
  = "08:00 - Begin pickup activities" ++ String Py.newline "09:00 - Begin driving"
  /\ Views.load_remarks
       (Views.store_remarks
          (remarks (generate_log_for_trip (mkDatetime 0 8 0) 200 (7 # 2))))
     = ["08:00 - Begin pickup activities"; "09:00 - Begin driving"].
Proof.
  split; [reflexivity|].
  destruct remarks_round_trip as (_ & _ & Hday).
  rewrite (Hday (mkDatetime 0 8 0) 200%Q (7 # 2)%Q); [reflexivity | |].
  - simpl; lia.
  - discriminate.
Defined.

(** The PDF export writes a duration of m minutes as "{m // 60}h {m % 60}m",
    without padding the minutes, where the HOS status pads them to two
    digits: the two renderings of the same minutes agree exactly when the
    minutes part is 10 or more (65 minutes is "1h 5m" in the export and
    "1h 05m" in the status).  A missing duration is exported as "0h 0m". *)
Theorem pdf_durations_unpadded (strftime : datetime -> string)
    (log_data : LogDict) (driver_name : string) :
  let pdf := export_to_pdf_data strftime log_data driver_name in
  (forall m, d_driving_time log_data = Some m ->
     pdf_driving_time pdf = Py.str (m / 60) ++ "h " ++ Py.str (m mod 60) ++ "m"
     /\ (pdf_driving_time pdf = HOSCalculator._format_time m <-> 10 <= m mod 60))
  /\ (forall m, d_off_duty_time log_data = Some m ->
     pdf_off_duty_time pdf = Py.str (m / 60) ++ "h " ++ Py.str (m mod 60) ++ "m"
     /\ (pdf_off_duty_time pdf = HOSCalculator._format_time m <-> 10 <= m mod 60))
  /\ (d_driving_time log_data = None -> pdf_driving_time pdf = "0h 0m")
  /\ (d_off_duty_time log_data = None -> pdf_off_duty_time pdf = "0h 0m").
Proof.
  intros pdf. subst pdf. unfold export_to_pdf_data.
  cbn [pdf_driving_time pdf_off_duty_time].
  split; [|split; [|split]].
  - intros m ->. split; [reflexivity | apply hours_minutes_padded].
  - intros m ->. split; [reflexivity | apply hours_minutes_padded].
  - now intros ->.
  - now intros ->.
Qed.

End ExportExtras.

(** A log of 65 minutes of driving is exported as "1h 5m". *)
Lemma pdf_durations_unpadded_witness :
  let log := ELDLogGenerator.mkLogDict None None None (Some 65) None None None
               None in
  ELDLogGenerator.pdf_driving_time
    (ELDLogGenerator.export_to_pdf_data (fun _ => "") log "Ann")
  = "1h 5m"
  /\ ELDLogGenerator.pdf_off_duty_time
       (ELDLogGenerator.export_to_pdf_data (fun _ => "") log "Ann")
     = "0h 0m".
Proof.
  cbv zeta.
  destruct (pdf_durations_unpadded (fun _ => "")
              (ELDLogGenerator.mkLogDict None None None (Some 65) None None
                 None None) "Ann")
    as (Hdrive & _ & _ & Hoff).
  split.
  - destruct (Hdrive 65 eq_refl) as [-> _]. reflexivity.
  - exact (Hoff eq_refl).
Defined.

(** ** What the violations and the cycle display say *)

Section HOSTexts.

Import HOSCalculator.

Lemma fmt_1f_whole (n : Z) : 0 <= n -> Py.fmt_1f (inject_Z n) = Py.str n ++ ".0".
Proof.
  intros Hn. unfold Py.fmt_1f.
  replace (Py.Qltb (inject_Z n) 0) with false
    by (symmetry; apply Qltb_ge; change 0%Q with (inject_Z 0);
        now rewrite <- Zle_Qle).
  assert (Hr : Py.round (inject_Z n * 10) = n * 10).
  { rewrite (round_comp _ (inject_Z (n * 10)))
      by (rewrite inject_Z_mult; reflexivity).
    pose proof (round_between (inject_Z (n * 10))) as H.
    rewrite Qfloor_Z, Qceiling_Z in H. lia. }
  rewrite Hr, Z.abs_eq by lia.
  rewrite Z.div_mul, Z.mod_mul by lia. reflexivity.
Qed.

(** With a whole number c >= 0 of cycle hours the cycle display is exact:
    it shows c plus one hour for every driving or on-duty entry, followed by
    ".0h / 70h". *)
Theorem cycle_display_whole_hours (es : list TimeEntry) (c : Z) :
  0 <= c ->
  cycle_used (calculate_hos_status es (inject_Z c))
  = Py.str (c + count_status "driving" es + count_status "on-duty" es)
    ++ ".0h / 70h".
Proof.
  intros Hc. cbn [cycle_used calculate_hos_status].
  set (k := c + count_status "driving" es + count_status "on-duty" es).
  assert (Hk : 0 <= k) by (unfold k, count_status; lia).
  rewrite (fmt_1f_comp _ (inject_Z k)).
  - rewrite (fmt_1f_whole k Hk).
    generalize (Py.str k). intros s.
    induction s as [|a s IH]; [reflexivity|]. cbn [append]. now rewrite IH.
  - rewrite cycle_used_hours_count. unfold k.
    rewrite !inject_Z_plus. ring.
Qed.

(** The theorem applies to 10 cycle hours and a day with four hours on
    duty. *)
Lemma cycle_display_whole_hours_witness :
  0 <= 10
  /\ cycle_used (calculate_hos_status (sample_day 3) (inject_Z 10))
     = "14.0h / 70h".
Proof.
  assert (H : 0 <= 10) by lia. split; [exact H|].
  rewrite (cycle_display_whole_hours (sample_day 3) 10 H). reflexivity.
Defined.

(** Every violation has severity 'violation' (never 'warning').  The
    description of a driving_limit gives the overage in whole hours, one per
    driving entry beyond eleven, and that of a break_required the length of
    the longest block of consecutive driving entries. *)
Theorem violation_texts (es : list TimeEntry) (c : Q) (v : Violation) :
  In v (calculate_violations es c) ->
  severity v = "violation"
  /\ (vtype v = "driving_limit" ->
      11 < count_status "driving" es
      /\ description v
         = "Exceeded 11-hour driving limit by "
           ++ Py.str (count_status "driving" es - 11) ++ "h 00m")
  /\ (vtype v = "break_required" ->
      exists m, longest_streak m es /\ 8 < m
        /\ description v
           = "Drove " ++ Py.str m ++ " hours without required 30-minute break").
Proof.
  unfold calculate_violations. rewrite !in_app_iff. unfold when.
  intros [H | [H | [H | H]]].
  - destruct (Z.ltb_spec (11 * 60) (driving_minutes es)) as [Hd|Hd];
      [|destruct H].
    destruct H as [<- | []]. cbn [severity vtype description].
    rewrite driving_minutes_count in *.
    split; [reflexivity|]. split; [|discriminate].
    intros _. split; [lia|].
    replace (60 * count_status "driving" es - 11 * 60)
      with (60 * (count_status "driving" es - 11)) by lia.
    now rewrite format_whole_hours.
  - destruct (14 * 60 <? on_duty_minutes es); [|destruct H].
    destruct H as [<- | []]. cbn [severity vtype].
    split; [reflexivity|]. split; discriminate.
  - destruct (Py.Qltb 70 (cycle_used_hours es c)); [|destruct H].
    destruct H as [<- | []]. cbn [severity vtype].
    split; [reflexivity|]. split; discriminate.
  - destruct (Z.ltb_spec 8 (max_continuous es)) as [Hm|Hm]; [|destruct H].
    destruct H as [<- | []]. cbn [severity vtype description].
    split; [reflexivity|]. split; [discriminate|].
    intros _. exists (max_continuous es).
    split; [apply max_continuous_longest|]. split; [exact Hm | reflexivity].
Qed.

(** The theorem applies to twelve driving hours: one hour too many. *)
Lemma violation_texts_witness :
  exists v, In v (calculate_violations (sample_day 12) 10)
            /\ description v = "Exceeded 11-hour driving limit by 1h 00m".
Proof.
  set (v := {| vtype := "driving_limit";
               description := "Exceeded 11-hour driving limit by 1h 00m";
               severity := "violation" |}).
  assert (Hin : In v (calculate_violations (sample_day 12) 10))
    by (left; reflexivity).
  exists v. split; [exact Hin|].
  destruct (violation_texts (sample_day 12) 10 v Hin) as (_ & Hdrv & _).
  destruct (Hdrv eq_refl) as [_ ->]. reflexivity.
Defined.

End HOSTexts.

(** Sixty-five minutes are "1h 05m", and nothing else is. *)
Lemma format_time_unambiguous_witness :
  HOSCalculator._format_time 65 = "1h 05m"
  /\ forall n, HOSCalculator._format_time n = HOSCalculator._format_time 65 ->
               n = 65.
Proof.
  split.
  - destruct (format_time_unambiguous 65 65) as [_ Hshape].
    destruct (Hshape 1 5 ltac:(lia)) as [Hfmt _]. exact Hfmt.
  - intros n Hn. exact (proj1 (proj1 (format_time_unambiguous n 65)) Hn).
Defined.

(** For 2500 miles and 900 minutes: five stops, numbered 1 to 5, 780 minutes
    in all. *)
Lemma stops_numbered_witness :
  let stops := RouteCalculator._generate_stops "Dallas" "Denver" "Boston"
                 (32 # 1, -97 # 1)%Q (39 # 1, -105 # 1)%Q (42 # 1, -71 # 1)%Q
                 2500 900 in
  map RouteCalculator.id stops
  = ["pickup-1"; "fuel-2"; "fuel-3"; "rest-4"; "dropoff-5"]
  /\ Py.sum (map RouteCalculator.duration stops) = 780.
Proof.
  cbv zeta.
  destruct (stops_numbered "Dallas" "Denver" "Boston"
              (32 # 1, -97 # 1)%Q (39 # 1, -105 # 1)%Q (42 # 1, -71 # 1)%Q
              2500 900) as (_ & Hids & _ & _ & Hsum).
  rewrite Hids, Hsum. split; reflexivity.
Defined.
